(** * The mind-map LLM relay: [maind-map/LLM_proxy.py] and [maind-map/claude_proxy.py]

    The three POST handlers take a JSON body [{question, freemind_xml}], build
    one prompt, send it to a provider with [requests.post] and map the
    provider's answer to a JSON envelope.  They are embedded here as
    computations in a small state-and-exception monad: the state is what a
    handler can touch (standard output and the requests put on the wire), an
    exception is a Python exception on its way up to the enclosing [try]. *)

From Stdlib Require Import ZArith Ascii String List Floats.
From stdpp Require Import base option list gmap strings pretty.

#[local] Set Warnings "-register-all".
#[local] Open Scope string_scope.
#[local] Open Scope Z_scope.
#[local] Open Scope list_scope.

(** ** Python values *)

(** The objects [json.loads] builds, which is all the handlers ever hold:
    [None], [bool], [int], [float], [str], [list] and [dict] with [str] keys.
    A [str] is a sequence of characters; the handlers concatenate strings and
    take prefixes of them, nothing else. *)
Inductive pyval :=
| PNone
| PBool (b : bool)
| PInt (z : Z)
| PFloat (f : float)
| PStr (s : string)
| PList (l : list pyval)
| PDict (d : gmap string pyval).

(** Exceptions raised by the interpreter for the operations the handlers
    apply to a value: attribute access and subscripting. *)
Inductive builtin_exn :=
| AttributeError (obj : pyval) (name : string)
| KeyError (key : pyval)
| IndexError (seq : pyval)
| TypeError (obj idx : pyval).

(** An exception is one of those, or one raised inside Flask or [requests]
    ([request.json], [requests.post], [Response.json]).  Of the latter the
    handlers can observe two things: whether it is an instance of [Exception]
    (what [except Exception] tests) and [str(e)]. *)
Inductive pyexn :=
| Builtin (e : builtin_exn)
| Library (is_Exception : bool) (message : string).

Definition isinstance_Exception (e : pyexn) : bool :=
  match e with
  | Builtin _ => true
  | Library b _ => b
  end.

(** What the interpreter decides and the sources do not: [repr] of a float, a
    list or a dict, and the message of an exception it raises itself. *)
Class PyRuntime := {
  py_repr : pyval -> string;
  exn_text : builtin_exn -> string
}.

Section Builtins.
Context `{PyRuntime}.

(** [str(v)], which is what a replacement field [{v}] of an f-string inserts. *)
Definition py_str (v : pyval) : string :=
  match v with
  | PNone => "None"
  | PBool true => "True"
  | PBool false => "False"
  | PInt z => pretty z
  | PStr s => s
  | PFloat _ | PList _ | PDict _ => py_repr v
  end.

(** [str(e)] *)
Definition str_exn (e : pyexn) : string :=
  match e with
  | Builtin b => exn_text b
  | Library _ message => message
  end.
End Builtins.

(** An f-string is a sequence of literal text and replacement fields. *)
Inductive fpart :=
| Lit (s : string)
| Fld (v : pyval).

Definition fpart_str `{PyRuntime} (p : fpart) : string :=
  match p with
  | Lit s => s
  | Fld v => py_str v
  end.

Definition fstring `{PyRuntime} (parts : list fpart) : string :=
  foldr (fun p rest => fpart_str p +:+ rest) "" parts.

(** The character written [\n] in a Python literal. *)
Definition NL : string := String "010"%char "".

(** [s[:n]] for [n >= 0] *)
Definition slice_to (n : nat) (s : string) : string := substring 0 n s.

(** A call either returns or raises. *)
Inductive result (A : Type) :=
| Returns (a : A)
| Raises (e : pyexn).
Arguments Returns {A} a.
Arguments Raises {A} e.

#[global] Instance result_ret : MRet result := @Returns.
#[global] Instance result_bind : MBind result := fun A B k r =>
  match r with
  | Returns a => k a
  | Raises e => Raises e
  end.

(** [data.get(key, default)]: only a dict has the method. *)
Definition dict_get (data : pyval) (key : string) (default : pyval) : result pyval :=
  match data with
  | PDict d =>
      match d !! key with
      | Some v => Returns v
      | None => Returns default
      end
  | _ => Raises (Builtin (AttributeError data "get"))
  end.

(** [obj['key']] *)
Definition getitem_key (obj : pyval) (key : string) : result pyval :=
  match obj with
  | PDict d =>
      match d !! key with
      | Some v => Returns v
      | None => Raises (Builtin (KeyError (PStr key)))
      end
  | _ => Raises (Builtin (TypeError obj (PStr key)))
  end.

(** Position [i] of a sequence of length [n], counted from the end when negative. *)
Definition seq_position (n : nat) (i : Z) : option nat :=
  let j := if i <? 0 then i + Z.of_nat n else i in
  if (0 <=? j) && (j <? Z.of_nat n) then Some (Z.to_nat j) else None.

(** [obj[i]] for an int [i].  A dict built from JSON has no int key. *)
Definition getitem_index (obj : pyval) (i : Z) : result pyval :=
  match obj with
  | PList l =>
      match seq_position (length l) i ≫= (fun k => l !! k) with
      | Some v => Returns v
      | None => Raises (Builtin (IndexError obj))
      end
  | PStr s =>
      match seq_position (String.length s) i ≫= (fun k => String.get k s) with
      | Some c => Returns (PStr (String c ""))
      | None => Raises (Builtin (IndexError obj))
      end
  | PDict _ => Raises (Builtin (KeyError (PInt i)))
  | _ => Raises (Builtin (TypeError obj (PInt i)))
  end.

(** ** The world of a handler *)

(** [requests]: what is sent, and the response object as the handlers read it. *)
Module requests.
Record Request := {
  url : string;
  headers : gmap string string;
  json : pyval
}.

Record Response := {
  status_code : Z;
  response_headers : gmap string string;
  text : string;
  response_json : result pyval   (* the outcome of [response.json()] *)
}.
End requests.

(** Flask: the inbound request and the response a view returns. *)
Module flask.
Record Request := {
  json : result pyval   (* the outcome of evaluating [request.json] *)
}.

Record Response := {
  body : gmap string pyval;
  status : Z
}.

(** [jsonify(d)] is a 200 response carrying [d]. *)
Definition jsonify (d : gmap string pyval) : Response :=
  {| body := d; status := 200 |}.

(** A view that returns the pair [(response, code)] answers with that status. *)
Definition with_status (r : Response) (code : Z) : Response :=
  {| body := body r; status := code |}.
End flask.

Record world := World {
  stdout : list string;            (* lines printed, oldest first *)
  wire : list requests.Request     (* POSTs issued, oldest first *)
}.

Definition M (A : Type) : Type := world -> result A * world.

Definition ret {A} (a : A) : M A := fun w => (Returns a, w).

Definition bind {A B} (c : M A) (k : A -> M B) : M B :=
  fun w =>
    match c w with
    | (Returns a, w') => k a w'
    | (Raises e, w') => (Raises e, w')
    end.

#[global] Instance M_ret : MRet M := @ret.
#[global] Instance M_bind : MBind M := fun A B k c => bind c k.

(** The outcome of a call that touches nothing. *)
Definition lift {A} (r : result A) : M A := fun w => (r, w).

(** [print(line)]; standard output is taken to accept every line. *)
Definition print (line : string) : M unit :=
  fun w => (Returns tt, {| stdout := stdout w ++ [line]; wire := wire w |}).

(** [try: body / except Exception as e: handler e] *)
Definition try_except_Exception {A} (body : M A) (handler : pyexn -> M A) : M A :=
  fun w =>
    match body w with
    | (Returns a, w') => (Returns a, w')
    | (Raises e, w') =>
        if isinstance_Exception e then handler e w' else (Raises e, w')
    end.

(** The provider and the network in between: what [requests.post] does with a
    request, a response or an exception.  A handler calls it once at most, so
    this is the answer of one call; nothing is said of what a later call
    with the same request would be answered. *)
Definition network := requests.Request -> result requests.Response.

(** [requests.post(url, headers=headers, json=payload)] *)
Definition requests_post (net : network) (url : string)
    (headers : gmap string string) (payload : pyval) : M requests.Response :=
  fun w =>
    let rq := {| requests.url := url; requests.headers := headers;
                 requests.json := payload |} in
    (net rq, {| stdout := stdout w; wire := wire w ++ [rq] |}).

(** A dict of strings as a value, for printing. *)
Definition str_dict (d : gmap string string) : pyval := PDict (PStr <$> d).

(** ** Text and the operating system, for the key loaders *)

(** [c.isspace()] for one character, which the interpreter decides. *)
Class PyChars := {
  isspace : ascii -> bool
}.

Section Strip.
Context `{PyChars}.

(** [s.lstrip()] *)
Fixpoint lstrip (s : string) : string :=
  match s with
  | EmptyString => EmptyString
  | String c s' => if isspace c then lstrip s' else s
  end.

(** [s.rstrip()] *)
Fixpoint rstrip (s : string) : string :=
  match s with
  | EmptyString => EmptyString
  | String c s' =>
      match rstrip s' with
      | EmptyString => if isspace c then EmptyString else String c EmptyString
      | r => String c r
      end
  end.

(** [s.strip()]: the whitespace at both ends goes. *)
Definition py_strip (s : string) : string := rstrip (lstrip s).
End Strip.

(** [len(s)] *)
Definition py_len (s : string) : Z := Z.of_nat (String.length s).

(** The truth value of [s] where [s] is a string or [None]. *)
Definition truthy (s : option string) : bool :=
  match s with
  | Some (String _ _) => true
  | _ => false
  end.

(** What the loaders ask of the operating system.  Nothing changes it while
    a loader runs. *)
Module os.
Record system := {
  getcwd : result string;
  listdir : result (list string);   (* [os.listdir('.')] *)
  path_exists : string -> bool;     (* [os.path.exists(name)] *)
  read : string -> result string;   (* [with open(name, 'r') as file: file.read()] *)
  environ : gmap string string
}.
End os.

(** ** LLM_proxy.py *)

Module LLM_proxy.
Section Keys.
Context `{PyRuntime} `{PyChars}.
Variable sys : os.system.

Definition get_claude_api_key_from_file : M string :=
  try_except_Exception
    (cwd ← lift (os.getcwd sys);
     print (fstring [Lit "Current working directory: "; Fld (PStr cwd)]);;
     files ← lift (os.listdir sys);
     print (fstring [Lit "Files in current directory: "; Fld (PList (PStr <$> files))]);;
     (if bool_decide (".private" ∈ files)
      then print ".private file exists in current directory"
      else print ".private file NOT found in current directory");;
     content ← lift (os.read sys ".private");
     let api_key := py_strip content in
     print (fstring [Lit "API key from .private file (first 10 chars): ";
                     Fld (PStr (slice_to 10 api_key)); Lit "..."]);;
     print (fstring [Lit "API key length: "; Fld (PInt (py_len api_key))]);;
     ret api_key)
    (fun e =>
       print (fstring [Lit "Error reading API key from .private file: "; Lit (str_exn e)]);;
       ret (default "YOUR_API_KEY" (os.environ sys !! "CLAUDE_API_KEY"))).

Definition get_openai_api_key : M string :=
  try_except_Exception
    (if os.path_exists sys ".openai_key" then
       content ← lift (os.read sys ".openai_key");
       let api_key := py_strip content in
       print (fstring [Lit "OpenAI API key from .openai_key file (first 10 chars): ";
                       Fld (PStr (slice_to 10 api_key)); Lit "..."]);;
       print (fstring [Lit "OpenAI API key length: "; Fld (PInt (py_len api_key))]);;
       ret api_key
     else
       let api_key := os.environ sys !! "OPENAI_API_KEY" in
       if truthy api_key then
         print (fstring [Lit "OpenAI API key from environment variable (first 10 chars): ";
                         Fld (PStr (slice_to 10 (default "" api_key))); Lit "..."]);;
         ret (default "" api_key)
       else
         print "No OpenAI API key found in environment variable or .openai_key file";;
         ret "YOUR_OPENAI_API_KEY")
    (fun e =>
       print (fstring [Lit "Error reading OpenAI API key: "; Lit (str_exn e)]);;
       ret (default "YOUR_OPENAI_API_KEY" (os.environ sys !! "OPENAI_API_KEY"))).

(** Lines 60-63: the two globals, set when the module is loaded. *)
Definition load_module : M (string * string) :=
  CLAUDE_API_KEY ← get_claude_api_key_from_file;
  OPENAI_API_KEY ← get_openai_api_key;
  print (fstring [Lit "Final Claude API key being used (first 10 chars): ";
                  Fld (PStr (slice_to 10 CLAUDE_API_KEY)); Lit "..."]);;
  print (fstring [Lit "Final OpenAI API key being used (first 10 chars): ";
                  Fld (PStr (if truthy (Some OPENAI_API_KEY)
                             then slice_to 10 OPENAI_API_KEY else "None"));
                  Lit "..."]);;
  ret (CLAUDE_API_KEY, OPENAI_API_KEY).

End Keys.

Section Handlers.
Context `{PyRuntime}.
Variables CLAUDE_API_KEY OPENAI_API_KEY : string.
Variable net : network.

Definition ping (request : flask.Request) : M flask.Response :=
  ret (flask.jsonify {[ "success" := PBool true; "message" := PStr "Pong!" ]}).

(** The f-string of line 83. *)
Definition claude_message (question freemind_xml : pyval) : string :=
  fstring [Lit "Using the mind map represented by the following Freemind XML, please answer the following question: ";
           Fld question; Lit (NL +:+ NL); Fld freemind_xml].

(** [claude_response['content'][0]['text']] *)
Definition claude_response_text (claude_response : pyval) : result pyval :=
  content ← getitem_key claude_response "content";
  content_0 ← getitem_index content 0;
  getitem_key content_0 "text".

Definition claude_try (request : flask.Request) : M flask.Response :=
  data ← lift (flask.json request);
  question ← lift (dict_get data "question" (PStr ""));
  freemind_xml ← lift (dict_get data "freemind_xml" (PStr ""));
  let message := claude_message question freemind_xml in
  let claude_url := "https://api.anthropic.com/v1/messages" in
  let headers : gmap string string :=
    {[ "Content-Type" := "application/json";
       "x-api-key" := CLAUDE_API_KEY;
       "anthropic-version" := "2023-06-01" ]} in
  print (fstring [Lit "Using Claude API key: ";
                  Fld (PStr (slice_to 10 CLAUDE_API_KEY)); Lit "..."]);;
  let payload :=
    PDict {[ "model" := PStr "claude-3-haiku-20240307";
             "max_tokens" := PInt 4000;
             "messages" := PList [PDict {[ "role" := PStr "user";
                                           "content" := PStr message ]}] ]} in
  print (fstring [Lit "Making request to Claude API with headers: ";
                  Fld (str_dict headers)]);;
  print (fstring [Lit "Payload: "; Fld payload]);;
  response ← requests_post net claude_url headers payload;
  print (fstring [Lit "Claude API response status: ";
                  Fld (PInt (requests.status_code response))]);;
  print (fstring [Lit "Claude API response headers: ";
                  Fld (str_dict (requests.response_headers response))]);;
  print (fstring [Lit "Claude API response text: ";
                  Fld (PStr (slice_to 500 (requests.text response))); Lit "..."]);;
  if requests.status_code response =? 200 then
    claude_response ← lift (requests.response_json response);
    text ← lift (claude_response_text claude_response);
    ret (flask.jsonify {[ "success" := PBool true; "response" := text ]})
  else
    let error_response : gmap string pyval :=
      {[ "success" := PBool false;
         "error" := PStr (fstring [Lit "API error: ";
                                   Fld (PInt (requests.status_code response))]);
         "details" := PStr (requests.text response) ]} in
    print (fstring [Lit "Returning error response: "; Fld (PDict error_response)]);;
    ret (flask.with_status (flask.jsonify error_response) 500).

Definition claude_except (e : pyexn) : M flask.Response :=
  ret (flask.with_status
         (flask.jsonify {[ "success" := PBool false;
                           "error" := PStr (str_exn e) ]}) 500).

Definition proxy_to_claude (request : flask.Request) : M flask.Response :=
  try_except_Exception (claude_try request) claude_except.

(** The f-string of line 152. *)
Definition chatgpt_message (question freemind_xml : pyval) : string :=
  fstring [Lit "Using the mind map represented by the following Freemind XML, please answer the following question: ";
           Fld question; Lit (NL +:+ NL); Fld freemind_xml].

(** [openai_response['choices'][0]['message']['content']] *)
Definition openai_response_text (openai_response : pyval) : result pyval :=
  choices ← getitem_key openai_response "choices";
  choices_0 ← getitem_index choices 0;
  message ← getitem_key choices_0 "message";
  getitem_key message "content".

Definition chatgpt_try (request : flask.Request) : M flask.Response :=
  data ← lift (flask.json request);
  question ← lift (dict_get data "question" (PStr ""));
  freemind_xml ← lift (dict_get data "freemind_xml" (PStr ""));
  let message := chatgpt_message question freemind_xml in
  let openai_url := "https://api.openai.com/v1/chat/completions" in
  let headers : gmap string string :=
    {[ "Content-Type" := "application/json";
       "Authorization" := fstring [Lit "Bearer "; Fld (PStr OPENAI_API_KEY)] ]} in
  print (fstring [Lit "Using OpenAI API key: ";
                  Fld (PStr (slice_to 10 OPENAI_API_KEY)); Lit "..."]);;
  let payload :=
    PDict {[ "model" := PStr "gpt-3.5-turbo";
             "max_tokens" := PInt 4000;
             "messages" := PList [PDict {[ "role" := PStr "user";
                                           "content" := PStr message ]}] ]} in
  print (fstring [Lit "Making request to OpenAI API with headers: ";
                  Fld (str_dict headers)]);;
  print (fstring [Lit "Payload: "; Fld payload]);;
  response ← requests_post net openai_url headers payload;
  print (fstring [Lit "OpenAI API response status: ";
                  Fld (PInt (requests.status_code response))]);;
  print (fstring [Lit "OpenAI API response headers: ";
                  Fld (str_dict (requests.response_headers response))]);;
  print (fstring [Lit "OpenAI API response text: ";
                  Fld (PStr (slice_to 500 (requests.text response))); Lit "..."]);;
  if requests.status_code response =? 200 then
    openai_response ← lift (requests.response_json response);
    text ← lift (openai_response_text openai_response);
    ret (flask.jsonify {[ "success" := PBool true; "response" := text ]})
  else
    let error_response : gmap string pyval :=
      {[ "success" := PBool false;
         "error" := PStr (fstring [Lit "API error: ";
                                   Fld (PInt (requests.status_code response))]);
         "details" := PStr (requests.text response) ]} in
    print (fstring [Lit "Returning error response: "; Fld (PDict error_response)]);;
    ret (flask.with_status (flask.jsonify error_response) 500).

Definition chatgpt_except (e : pyexn) : M flask.Response :=
  ret (flask.with_status
         (flask.jsonify {[ "success" := PBool false;
                           "error" := PStr (str_exn e) ]}) 500).

Definition proxy_to_chatgpt (request : flask.Request) : M flask.Response :=
  try_except_Exception (chatgpt_try request) chatgpt_except.

End Handlers.
End LLM_proxy.

(** ** claude_proxy.py *)

Module claude_proxy.
Section Keys.
Context `{PyRuntime} `{PyChars}.
Variable sys : os.system.

Definition get_api_key_from_file : M string :=
  try_except_Exception
    (cwd ← lift (os.getcwd sys);
     print (fstring [Lit "Current working directory: "; Fld (PStr cwd)]);;
     files ← lift (os.listdir sys);
     print (fstring [Lit "Files in current directory: "; Fld (PList (PStr <$> files))]);;
     (if bool_decide (".private" ∈ files)
      then print ".private file exists in current directory"
      else print ".private file NOT found in current directory");;
     content ← lift (os.read sys ".private");
     let api_key := py_strip content in
     print (fstring [Lit "API key from .private file (first 10 chars): ";
                     Fld (PStr (slice_to 10 api_key)); Lit "..."]);;
     print (fstring [Lit "API key length: "; Fld (PInt (py_len api_key))]);;
     ret api_key)
    (fun e =>
       print (fstring [Lit "Error reading API key from .private file: "; Lit (str_exn e)]);;
       ret (default "YOUR_API_KEY" (os.environ sys !! "CLAUDE_API_KEY"))).

(** Lines 37-38: the global, set when the module is loaded. *)
Definition load_module : M string :=
  API_KEY ← get_api_key_from_file;
  print (fstring [Lit "Final API key being used (first 10 chars): ";
                  Fld (PStr (slice_to 10 API_KEY)); Lit "..."]);;
  ret API_KEY.

End Keys.

Section Handlers.
Context `{PyRuntime}.
Variable API_KEY : string.
Variable net : network.

Definition ping (request : flask.Request) : M flask.Response :=
  ret (flask.jsonify {[ "success" := PBool true; "message" := PStr "Pong!" ]}).

(** The f-string of line 58. *)
Definition claude_message (question freemind_xml : pyval) : string :=
  fstring [Lit "Using the mind map represented by the following Freemind XML, please answer the following question: ";
           Fld question; Lit (NL +:+ NL); Fld freemind_xml].

(** [claude_response['content'][0]['text']] *)
Definition claude_response_text (claude_response : pyval) : result pyval :=
  content ← getitem_key claude_response "content";
  content_0 ← getitem_index content 0;
  getitem_key content_0 "text".

Definition claude_try (request : flask.Request) : M flask.Response :=
  data ← lift (flask.json request);
  question ← lift (dict_get data "question" (PStr ""));
  freemind_xml ← lift (dict_get data "freemind_xml" (PStr ""));
  let message := claude_message question freemind_xml in
  let claude_url := "https://api.anthropic.com/v1/messages" in
  let headers : gmap string string :=
    {[ "Content-Type" := "application/json";
       "x-api-key" := API_KEY;
       "anthropic-version" := "2023-06-01" ]} in
  print (fstring [Lit "Using API key: ";
                  Fld (PStr (slice_to 10 API_KEY)); Lit "..."]);;
  let payload :=
    PDict {[ "model" := PStr "claude-3-opus-20240229";
             "max_tokens" := PInt 4000;
             "messages" := PList [PDict {[ "role" := PStr "user";
                                           "content" := PStr message ]}] ]} in
  print (fstring [Lit "Making request to Claude API with headers: ";
                  Fld (str_dict headers)]);;
  print (fstring [Lit "Payload: "; Fld payload]);;
  response ← requests_post net claude_url headers payload;
  print (fstring [Lit "Claude API response status: ";
                  Fld (PInt (requests.status_code response))]);;
  print (fstring [Lit "Claude API response headers: ";
                  Fld (str_dict (requests.response_headers response))]);;
  print (fstring [Lit "Claude API response text: ";
                  Fld (PStr (slice_to 500 (requests.text response))); Lit "..."]);;
  if requests.status_code response =? 200 then
    claude_response ← lift (requests.response_json response);
    text ← lift (claude_response_text claude_response);
    ret (flask.jsonify {[ "success" := PBool true; "response" := text ]})
  else
    let error_response : gmap string pyval :=
      {[ "success" := PBool false;
         "error" := PStr (fstring [Lit "API error: ";
                                   Fld (PInt (requests.status_code response))]);
         "details" := PStr (requests.text response) ]} in
    print (fstring [Lit "Returning error response: "; Fld (PDict error_response)]);;
    ret (flask.with_status (flask.jsonify error_response) 500).

Definition claude_except (e : pyexn) : M flask.Response :=
  ret (flask.with_status
         (flask.jsonify {[ "success" := PBool false;
                           "error" := PStr (str_exn e) ]}) 500).

Definition proxy_to_claude (request : flask.Request) : M flask.Response :=
  try_except_Exception (claude_try request) claude_except.

End Handlers.
End claude_proxy.

(** ** check_api_key.py *)

Module check_api_key.
Section Script.
Context `{PyRuntime} `{PyChars}.
Variable sys : os.system.

(** The key, or [None]. *)
Definition read_api_key : M (option string) :=
  try_except_Exception
    (cwd ← lift (os.getcwd sys);
     print (fstring [Lit "Current working directory: "; Fld (PStr cwd)]);;
     files ← lift (os.listdir sys);
     print (fstring [Lit "Files in current directory: "; Fld (PList (PStr <$> files))]);;
     (if bool_decide (".private" ∈ files)
      then print ".private file exists in current directory"
      else print ".private file NOT found in current directory");;
     content ← lift (os.read sys ".private");
     let api_key := py_strip content in
     print (fstring [Lit "API key from .private file (first 10 chars): ";
                     Fld (PStr (slice_to 10 api_key)); Lit "..."]);;
     print (fstring [Lit "API key length: "; Fld (PInt (py_len api_key))]);;
     ret (Some api_key))
    (fun e =>
       print (fstring [Lit "Error reading API key: "; Lit (str_exn e)]);;
       ret None).

(** The script, run as [__main__]. *)
Definition main : M unit :=
  api_key ← read_api_key;
  if truthy api_key
  then print "Successfully read API key from .private file"
  else print "Failed to read API key from .private file".

End Script.
End check_api_key.

(** ** A runtime and a provider to run the handlers on sample requests *)

Module Sample.

Definition type_name (v : pyval) : string :=
  match v with
  | PNone => "NoneType"
  | PBool _ => "bool"
  | PInt _ => "int"
  | PFloat _ => "float"
  | PStr _ => "str"
  | PList _ => "list"
  | PDict _ => "dict"
  end.

(** The messages are CPython 3.12's.  [repr] of a float, a list or a dict is
    not reproduced, a placeholder stands for it: no sample formats one, and
    every theorem below holds for all runtimes. *)
#[export] Instance cpython : PyRuntime := {|
  py_repr v := "<" +:+ type_name v +:+ ">";
  exn_text e :=
    match e with
    | AttributeError obj name =>
        "'" +:+ type_name obj +:+ "' object has no attribute '" +:+ name +:+ "'"
    | KeyError (PStr k) => "'" +:+ k +:+ "'"
    | KeyError (PInt i) => pretty i
    | KeyError k => "<" +:+ type_name k +:+ ">"
    | IndexError (PStr _) => "string index out of range"
    | IndexError _ => "list index out of range"
    | TypeError (PList _) _ => "list indices must be integers or slices, not str"
    | TypeError (PStr _) _ => "string indices must be integers, not 'str'"
    | TypeError obj _ => "'" +:+ type_name obj +:+ "' object is not subscriptable"
    end
|}.

Definition w0 : world := {| stdout := []; wire := [] |}.

Definition claude_key : string := "sk-ant-api03-sample".
Definition openai_key : string := "sk-proj-sample".

(** The request of [test_chatgpt_api.py], with a shorter map. *)
Definition question : string := "What is the capital of France?".
Definition freemind_xml : string := "<map><node TEXT='France'/></map>".
Definition inbound : gmap string pyval :=
  {[ "question" := PStr question; "freemind_xml" := PStr freemind_xml ]}.
Definition capital_of_France : flask.Request :=
  {| flask.json := Returns (PDict inbound) |}.

(** The same without [freemind_xml]. *)
Definition question_only : gmap string pyval := {[ "question" := PStr question ]}.

(** Providers that answer every request the same way. *)
Definition answering (r : requests.Response) : network := fun _ => Returns r.
Definition failing (e : pyexn) : network := fun _ => Raises e.

Definition claude_says (t : string) : requests.Response :=
  {| requests.status_code := 200;
     requests.response_headers := ∅;
     requests.text := "";
     requests.response_json := Returns (PDict
       {[ "content" := PList [PDict {[ "type" := PStr "text"; "text" := PStr t ]}] ]}) |}.

Definition openai_says (t : string) : requests.Response :=
  {| requests.status_code := 200;
     requests.response_headers := ∅;
     requests.text := "";
     requests.response_json := Returns (PDict
       {[ "choices" := PList [PDict
            {[ "message" := PDict {[ "role" := PStr "assistant";
                                     "content" := PStr t ]} ]}] ]}) |}.

Definition refused (code : Z) (raw : string) : requests.Response :=
  {| requests.status_code := code;
     requests.response_headers := ∅;
     requests.text := raw;
     requests.response_json := Raises (Library true "Expecting value: line 1 column 1 (char 0)") |}.

(** Two answers of a handler. *)
Definition says_Paris : flask.Response :=
  {| flask.body := {[ "success" := PBool true; "response" := PStr "Paris" ]};
     flask.status := 200 |}.

Definition unauthorized : flask.Response :=
  {| flask.body := {[ "success" := PBool false;
                      "error" := PStr "API error: 401";
                      "details" := PStr "invalid x-api-key" ]};
     flask.status := 500 |}.

(** [isspace] on the characters below U+0100: the controls 9 to 13 and 28 to
    31, the space, U+0085 and U+00A0. *)
#[export] Instance latin1 : PyChars := {|
  isspace c :=
    let n := N_of_ascii c in
    ((9 <=? n) && (n <=? 13) || (28 <=? n) && (n <=? 32) || (n =? 133) || (n =? 160))%N
|}.

Definition no_such_file (name : string) : pyexn :=
  Library true ("[Errno 2] No such file or directory: '" +:+ name +:+ "'").

(** A directory that holds [.private], the key followed by a newline. *)
Definition with_private : os.system :=
  {| os.getcwd := Returns "/srv/maind-map";
     os.listdir := Returns [".private"; "LLM_proxy.py"];
     os.path_exists name := bool_decide (name = ".private");
     os.read name :=
       if bool_decide (name = ".private") then Returns (claude_key +:+ NL)
       else Raises (no_such_file name);
     os.environ := {[ "OPENAI_API_KEY" := openai_key ]} |}.

(** The same directory when it may be read but not listed. *)
Definition unlistable : os.system :=
  {| os.getcwd := Returns "/srv/maind-map";
     os.listdir := Raises (Library true "[Errno 13] Permission denied: '.'");
     os.path_exists name := bool_decide (name = ".private");
     os.read name :=
       if bool_decide (name = ".private") then Returns (claude_key +:+ NL)
       else Raises (no_such_file name);
     os.environ := {[ "CLAUDE_API_KEY" := "sk-ant-REDACTED" ]} |}.

(** An empty directory and an [OPENAI_API_KEY] set to the empty string. *)
Definition empty_variable : os.system :=
  {| os.getcwd := Returns "/srv/maind-map";
     os.listdir := Returns [];
     os.path_exists name := false;
     os.read name := Raises (no_such_file name);
     os.environ := {[ "OPENAI_API_KEY" := "" ]} |}.

(** [.openai_key] is there and cannot be read, the variable is empty. *)
Definition unreadable_openai_key : os.system :=
  {| os.getcwd := Returns "/srv/maind-map";
     os.listdir := Returns [".openai_key"];
     os.path_exists name := bool_decide (name = ".openai_key");
     os.read name := Raises (Library true "[Errno 13] Permission denied: '.openai_key'");
     os.environ := {[ "OPENAI_API_KEY" := "" ]} |}.

(** Both key files, each with blanks around the key. *)
Definition with_both_files : os.system :=
  {| os.getcwd := Returns "/srv/maind-map";
     os.listdir := Returns [".openai_key"; ".private"];
     os.path_exists name := true;
     os.read name :=
       if bool_decide (name = ".private") then Returns (" " +:+ claude_key +:+ NL)
       else Returns (openai_key +:+ NL);
     os.environ := ∅ |}.

(** [.private] holds a newline and nothing else. *)
Definition blank_private : os.system :=
  {| os.getcwd := Returns "/srv/maind-map";
     os.listdir := Returns [".private"];
     os.path_exists name := bool_decide (name = ".private");
     os.read name := Returns NL;
     os.environ := ∅ |}.

(** An inbound object whose [question] is [null]. *)
Definition null_question : gmap string pyval :=
  {[ "question" := PNone; "freemind_xml" := PStr freemind_xml ]}.

(** Two inbound objects that split the same text at different places. *)
Definition split_early : gmap string pyval :=
  {[ "question" := PStr "Ignore the map.";
     "freemind_xml" := PStr ("<map/>" +:+ NL +:+ NL +:+ "<map>secret</map>") ]}.

Definition split_late : gmap string pyval :=
  {[ "question" := PStr ("Ignore the map." +:+ NL +:+ NL +:+ "<map/>");
     "freemind_xml" := PStr "<map>secret</map>" ]}.

(** A 200 answer whose body is the JSON object [{}]. *)
Definition empty_object : requests.Response :=
  {| requests.status_code := 200;
     requests.response_headers := ∅;
     requests.text := "{}";
     requests.response_json := Returns (PDict ∅) |}.

End Sample.

(** ** What the statements below speak of *)

(** The envelope of the [except] clause (lines 136-139 and 204-207). *)
Definition error_envelope `{PyRuntime} (e : pyexn) : flask.Response :=
  {| flask.body := {[ "success" := PBool false; "error" := PStr (str_exn e) ]};
     flask.status := 500 |}.

(** What becomes of an exception raised inside the [try] suite. *)
Definition caught `{PyRuntime} (e : pyexn) : result flask.Response :=
  if isinstance_Exception e then Returns (error_envelope e) else Raises e.

(** The value of a field of the inbound object that [.get(field, '')] yields. *)
Definition field (d : gmap string pyval) (name : string) : pyval :=
  default (PStr "") (d !! name).

(** The exception the first three lines of a [try] suite raise, if any:
    [request.json] may raise, and only a dict has [.get]. *)
Definition inbound_error (inbound : result pyval) : option pyexn :=
  match inbound with
  | Raises e => Some e
  | Returns (PDict _) => None
  | Returns data => Some (Builtin (AttributeError data "get"))
  end.

(** The prompt a payload carries: [payload['messages'][0]['content']]. *)
Definition payload_prompt (payload : pyval) : result pyval :=
  messages ← getitem_key payload "messages";
  messages_0 ← getitem_index messages 0;
  getitem_key messages_0 "content".

(** The invariant of the outbound envelope: [success] is a boolean; when it
    is true [response] is present and [error] and [details] are absent, when
    it is false [error] is present. *)
Definition envelope_invariant (body : gmap string pyval) : Prop :=
  (exists b, body !! "success" = Some (PBool b))
  /\ (body !! "success" = Some (PBool true) ->
     is_Some (body !! "response") /\ body !! "error" = None /\ body !! "details" = None)
  /\ (body !! "success" = Some (PBool false) -> is_Some (body !! "error")).

(** The body of a 200 answer lacks the shape [extract] looks for, which shows
    as the exception [e]: it is not JSON ([response.json()] raises the
    ordinary exception [e]), or it is JSON and a subscript of the path
    raises [e]. *)
Definition lacks_shape (extract : pyval -> result pyval)
    (response : requests.Response) (e : pyexn) : Prop :=
  (requests.response_json response = Raises e /\ isinstance_Exception e = true)
  \/ (exists v, requests.response_json response = Returns v /\ extract v = Raises e).

(** The request each handler of [LLM_proxy.py] puts on the wire for the
    inbound object [d]. *)
Definition claude_sends `{PyRuntime} (key : string) (d : gmap string pyval) : requests.Request :=
  {| requests.url := "https://api.anthropic.com/v1/messages";
     requests.headers :=
       {[ "Content-Type" := "application/json";
          "x-api-key" := key;
          "anthropic-version" := "2023-06-01" ]};
     requests.json :=
       PDict {[ "model" := PStr "claude-3-haiku-20240307";
                "max_tokens" := PInt 4000;
                "messages" := PList [PDict
                  {[ "role" := PStr "user";
                     "content" := PStr (LLM_proxy.claude_message
                                          (field d "question") (field d "freemind_xml")) ]}] ]} |}.

Definition chatgpt_sends `{PyRuntime} (key : string) (d : gmap string pyval) : requests.Request :=
  {| requests.url := "https://api.openai.com/v1/chat/completions";
     requests.headers :=
       {[ "Content-Type" := "application/json";
          "Authorization" := "Bearer " +:+ key ]};
     requests.json :=
       PDict {[ "model" := PStr "gpt-3.5-turbo";
                "max_tokens" := PInt 4000;
                "messages" := PList [PDict
                  {[ "role" := PStr "user";
                     "content" := PStr (LLM_proxy.chatgpt_message
                                          (field d "question") (field d "freemind_xml")) ]}] ]} |}.

(** The envelope of the non-200 branch (lines 127-133 and 195-201). *)
Definition upstream_error_envelope (response : requests.Response) : flask.Response :=
  {| flask.body :=
       {[ "success" := PBool false;
          "error" := PStr ("API error: " +:+ pretty (requests.status_code response));
          "details" := PStr (requests.text response) ]};
     flask.status := 500 |}.

(** An outcome is the uniform error envelope. *)
Definition is_error_envelope (outcome : result flask.Response) : Prop :=
  exists message,
    outcome = Returns {| flask.body := {[ "success" := PBool false; "error" := PStr message ]};
                         flask.status := 500 |}.

(** Some 200 answer whose body lacks the expected shape is left unfolded by
    the handler that receives it. *)
Definition unhandled_extraction_failure : Prop :=
  exists (rt : PyRuntime) (key : string) (net : network) (request : flask.Request)
         (w : world) (rq : requests.Request) (response : requests.Response) (e : pyexn),
    net rq = Returns response
    /\ requests.status_code response = 200
    /\ ((lacks_shape LLM_proxy.claude_response_text response e
         /\ wire (snd (LLM_proxy.proxy_to_claude key net request w)) = wire w ++ [rq]
         /\ ~ is_error_envelope (fst (LLM_proxy.proxy_to_claude key net request w)))
        \/ (lacks_shape LLM_proxy.openai_response_text response e
            /\ wire (snd (LLM_proxy.proxy_to_chatgpt key net request w)) = wire w ++ [rq]
            /\ ~ is_error_envelope (fst (LLM_proxy.proxy_to_chatgpt key net request w)))).

(** The handler's outcome once the provider has answered, given what it
    extracts from a 200 body. *)
Definition relayed `{PyRuntime} (extract : pyval -> result pyval) (answer : result requests.Response)
  : result flask.Response :=
  match answer with
  | Raises e => caught e
  | Returns response =>
      if requests.status_code response =? 200 then
        match requests.response_json response ≫= extract with
        | Returns t =>
            Returns {| flask.body := {[ "success" := PBool true; "response" := t ]};
                       flask.status := 200 |}
        | Raises e => caught e
        end
      else Returns (upstream_error_envelope response)
  end.

(** The request [rq] with the model of its payload replaced. *)
Definition set_model (model : string) (rq : requests.Request) : requests.Request :=
  {| requests.url := requests.url rq;
     requests.headers := requests.headers rq;
     requests.json :=
       match requests.json rq with
       | PDict payload => PDict (<["model" := PStr model]> payload)
       | v => v
       end |}.

(** A string that does not begin, does not end, with whitespace; a string
    of whitespace only. *)
Definition starts_clean `{PyChars} (s : string) : Prop :=
  match s with
  | String c _ => isspace c = false
  | EmptyString => True
  end.

Fixpoint last_char (s : string) : option ascii :=
  match s with
  | EmptyString => None
  | String c EmptyString => Some c
  | String _ s' => last_char s'
  end.

Definition ends_clean `{PyChars} (s : string) : Prop :=
  match last_char s with
  | Some c => isspace c = false
  | None => True
  end.

Fixpoint blank `{PyChars} (s : string) : bool :=
  match s with
  | EmptyString => true
  | String c s' => isspace c && blank s'
  end.

(** What [get_claude_api_key_from_file] returns from its [except] clause. *)
Definition claude_key_fallback (sys : os.system) : string :=
  default "YOUR_API_KEY" (os.environ sys !! "CLAUDE_API_KEY").

(** The module [LLM_proxy] is loaded, then one request is handled with the
    globals it has set. *)
Definition claude_after_load `{PyRuntime} `{PyChars} (sys : os.system) (net : network)
    (request : flask.Request) : M flask.Response :=
  keys ← LLM_proxy.load_module sys;
  LLM_proxy.proxy_to_claude (fst keys) net request.

Definition chatgpt_after_load `{PyRuntime} `{PyChars} (sys : os.system) (net : network)
    (request : flask.Request) : M flask.Response :=
  keys ← LLM_proxy.load_module sys;
  LLM_proxy.proxy_to_chatgpt (snd keys) net request.

(** ** Running the handlers *)

Ltac run :=
  cbv beta iota zeta delta
    [LLM_proxy.proxy_to_claude LLM_proxy.claude_try LLM_proxy.claude_except
     LLM_proxy.proxy_to_chatgpt LLM_proxy.chatgpt_try LLM_proxy.chatgpt_except
     try_except_Exception mbind M_bind bind lift print requests_post ret
     mret M_ret fst snd wire stdout
     dict_get field from_option id relayed caught result_bind
     flask.jsonify flask.with_status flask.body
     claude_sends chatgpt_sends upstream_error_envelope error_envelope].

(** Case analysis on the innermost undecided call of the goal. *)
Ltac branch :=
  match goal with
  | |- context [match ?x with _ => _ end] =>
      lazymatch x with
      | context [match _ with _ => _ end] => fail
      | _ =>
          lazymatch type of x with
          | option _ => destruct x
          | result _ => destruct x
          | bool => destruct x
          end
      end
  end.

Lemma append_empty_r (s : string) : s +:+ "" = s.
Proof.
  induction s as [|c s IH]; [reflexivity|].
  change (String c (s +:+ "") = String c s). now rewrite IH.
Qed.

Section Run.
Context `{PyRuntime}.

Lemma fstring_status (code : Z) :
  fstring [Lit "API error: "; Fld (PInt code)] = "API error: " +:+ pretty code.
Proof. unfold fstring; simpl foldr. now rewrite append_empty_r. Qed.

Lemma fstring_bearer (key : string) :
  fstring [Lit "Bearer "; Fld (PStr key)] = "Bearer " +:+ key.
Proof. unfold fstring; simpl foldr. now rewrite append_empty_r. Qed.

Lemma claude_run key net request w d :
  flask.json request = Returns (PDict d) ->
  wire (snd (LLM_proxy.proxy_to_claude key net request w)) = wire w ++ [claude_sends key d]
  /\ fst (LLM_proxy.proxy_to_claude key net request w)
     = relayed LLM_proxy.claude_response_text (net (claude_sends key d)).
Proof.
  intros Hd. run. rewrite Hd. run.
  repeat (branch; run); rewrite ?fstring_status; split; reflexivity.
Qed.

Lemma chatgpt_run key net request w d :
  flask.json request = Returns (PDict d) ->
  wire (snd (LLM_proxy.proxy_to_chatgpt key net request w)) = wire w ++ [chatgpt_sends key d]
  /\ fst (LLM_proxy.proxy_to_chatgpt key net request w)
     = relayed LLM_proxy.openai_response_text (net (chatgpt_sends key d)).
Proof.
  intros Hd. run. rewrite Hd. run. rewrite fstring_bearer.
  repeat (branch; run); rewrite ?fstring_status; split; reflexivity.
Qed.

Lemma claude_rejects key net request w e :
  inbound_error (flask.json request) = Some e ->
  LLM_proxy.proxy_to_claude key net request w = (caught e, w).
Proof.
  intros He. run. destruct (flask.json request) as [[]|]; simplify_eq/=; run;
    try branch; reflexivity.
Qed.

Lemma chatgpt_rejects key net request w e :
  inbound_error (flask.json request) = Some e ->
  LLM_proxy.proxy_to_chatgpt key net request w = (caught e, w).
Proof.
  intros He. run. destruct (flask.json request) as [[]|]; simplify_eq/=; run;
    try branch; reflexivity.
Qed.

Lemma inbound_cases (inbound : result pyval) :
  (exists d, inbound = Returns (PDict d)) \/ (exists e, inbound_error inbound = Some e).
Proof. destruct inbound as [[]|]; simpl; eauto. Qed.

Lemma not_longer {A} (l : list A) (x : A) : l <> l ++ [x].
Proof.
  intros E. apply (f_equal length) in E. rewrite length_app in E. simpl in E. lia.
Qed.

(** A handler that has sent [rq] had an object to build it from, and its
    outcome is decided by the answer to [rq]. *)
Lemma claude_sent key net request w rq :
  wire (snd (LLM_proxy.proxy_to_claude key net request w)) = wire w ++ [rq] ->
  (exists d, flask.json request = Returns (PDict d) /\ rq = claude_sends key d)
  /\ fst (LLM_proxy.proxy_to_claude key net request w)
     = relayed LLM_proxy.claude_response_text (net rq).
Proof.
  intros Hw. destruct (inbound_cases (flask.json request)) as [[d Hd]|[e He]].
  - destruct (claude_run key net request w d Hd) as [Hw' Hout].
    rewrite Hw' in Hw. apply app_inj_tail in Hw as [_ <-]. eauto.
  - rewrite (claude_rejects _ _ _ _ _ He) in Hw. simpl in Hw.
    now apply not_longer in Hw.
Qed.

Lemma chatgpt_sent key net request w rq :
  wire (snd (LLM_proxy.proxy_to_chatgpt key net request w)) = wire w ++ [rq] ->
  (exists d, flask.json request = Returns (PDict d) /\ rq = chatgpt_sends key d)
  /\ fst (LLM_proxy.proxy_to_chatgpt key net request w)
     = relayed LLM_proxy.openai_response_text (net rq).
Proof.
  intros Hw. destruct (inbound_cases (flask.json request)) as [[d Hd]|[e He]].
  - destruct (chatgpt_run key net request w d Hd) as [Hw' Hout].
    rewrite Hw' in Hw. apply app_inj_tail in Hw as [_ <-]. eauto.
  - rewrite (chatgpt_rejects _ _ _ _ _ He) in Hw. simpl in Hw.
    now apply not_longer in Hw.
Qed.

Lemma relayed_non_200 extract response :
  requests.status_code response <> 200 ->
  relayed extract (Returns response) = Returns (upstream_error_envelope response).
Proof.
  intros Hne. unfold relayed.
  destruct (requests.status_code response =? 200) eqn:E; [|reflexivity].
  now apply Z.eqb_eq in E.
Qed.

Lemma relayed_200 extract response :
  requests.status_code response = 200 ->
  relayed extract (Returns response) =
    match requests.response_json response ≫= extract with
    | Returns t =>
        Returns {| flask.body := {[ "success" := PBool true; "response" := t ]};
                   flask.status := 200 |}
    | Raises e => caught e
    end.
Proof. intros E. unfold relayed. now rewrite E. Qed.

(** The f-string of the prompt, on two strings. *)
Lemma prompt_of_strings (question freemind_xml : string) :
  fstring [Lit "Using the mind map represented by the following Freemind XML, please answer the following question: ";
           Fld (PStr question); Lit (NL +:+ NL); Fld (PStr freemind_xml)]
  = "Using the mind map represented by the following Freemind XML, please answer the following question: "
    +:+ question +:+ NL +:+ NL +:+ freemind_xml.
Proof. unfold fstring; simpl foldr. now rewrite append_empty_r. Qed.

(** The f-string of the prompt, on any two values. *)
Lemma prompt_of_values (question freemind_xml : pyval) :
  fstring [Lit "Using the mind map represented by the following Freemind XML, please answer the following question: ";
           Fld question; Lit (NL +:+ NL); Fld freemind_xml]
  = "Using the mind map represented by the following Freemind XML, please answer the following question: "
    +:+ py_str question +:+ NL +:+ NL +:+ py_str freemind_xml.
Proof. unfold fstring; simpl foldr. now rewrite append_empty_r. Qed.

(** The prompt built from an inbound object, an absent field giving nothing. *)
Lemma defaulted_prompt (d : gmap string pyval) :
  LLM_proxy.claude_message (field d "question") (field d "freemind_xml")
  = "Using the mind map represented by the following Freemind XML, please answer the following question: "
    +:+ match d !! "question" with Some v => py_str v | None => "" end
    +:+ NL +:+ NL
    +:+ match d !! "freemind_xml" with Some v => py_str v | None => "" end.
Proof.
  unfold LLM_proxy.claude_message, field. rewrite prompt_of_values.
  now destruct (d !! "question"), (d !! "freemind_xml").
Qed.

Lemma field_present d name v : d !! name = Some v -> field d name = v.
Proof. unfold field. now intros ->. Qed.

Lemma dict_get_absent d name key :
  d !! name = None ->
  dict_get (PDict (<[name := PStr ""]> d)) key (PStr "") = dict_get (PDict d) key (PStr "").
Proof.
  intros Hnone. unfold dict_get. destruct (decide (name = key)) as [<-|Hne].
  - now rewrite lookup_insert_eq, Hnone.
  - now rewrite lookup_insert_ne.
Qed.

Lemma claude_absent_field key net request w d name :
  flask.json request = Returns (PDict d) ->
  d !! name = None ->
  LLM_proxy.proxy_to_claude key net request w
  = LLM_proxy.proxy_to_claude key net
      {| flask.json := Returns (PDict (<[name := PStr ""]> d)) |} w.
Proof.
  intros Hd Hnone. run. rewrite Hd. cbn [flask.json]. cbv beta iota.
  fold (dict_get (PDict d) "question" (PStr ""));
    fold (dict_get (PDict d) "freemind_xml" (PStr ""));
    fold (dict_get (PDict (<[name := PStr ""]> d)) "question" (PStr ""));
    fold (dict_get (PDict (<[name := PStr ""]> d)) "freemind_xml" (PStr "")).
  now rewrite !dict_get_absent.
Qed.

Lemma chatgpt_absent_field key net request w d name :
  flask.json request = Returns (PDict d) ->
  d !! name = None ->
  LLM_proxy.proxy_to_chatgpt key net request w
  = LLM_proxy.proxy_to_chatgpt key net
      {| flask.json := Returns (PDict (<[name := PStr ""]> d)) |} w.
Proof.
  intros Hd Hnone. run. rewrite Hd. cbn [flask.json]. cbv beta iota.
  fold (dict_get (PDict d) "question" (PStr ""));
    fold (dict_get (PDict d) "freemind_xml" (PStr ""));
    fold (dict_get (PDict (<[name := PStr ""]> d)) "question" (PStr ""));
    fold (dict_get (PDict (<[name := PStr ""]> d)) "freemind_xml" (PStr "")).
  now rewrite !dict_get_absent.
Qed.

(** The three bodies a handler answers with. *)
Lemma success_envelope_ok (t : pyval) :
  envelope_invariant {[ "success" := PBool true; "response" := t ]}.
Proof.
  split; [eexists; reflexivity|].
  split; [intros _; split; [eexists|split]; reflexivity | intros E; discriminate E].
Qed.

Lemma upstream_error_envelope_ok (response : requests.Response) :
  envelope_invariant (flask.body (upstream_error_envelope response)).
Proof.
  split; [eexists; reflexivity|].
  split; [intros E; discriminate E | intros _; eexists; reflexivity].
Qed.

Lemma error_envelope_ok (e : pyexn) :
  envelope_invariant (flask.body (error_envelope e)).
Proof.
  split; [eexists; reflexivity|].
  split; [intros E; discriminate E | intros _; eexists; reflexivity].
Qed.

Lemma getitem_index_first (x : pyval) (l : list pyval) :
  getitem_index (PList (x :: l)) 0 = Returns x.
Proof.
  unfold getitem_index, seq_position.
  replace (0 <? Z.of_nat (length (x :: l))) with true
    by (symmetry; apply Z.ltb_lt; simpl length; lia).
  reflexivity.
Qed.

(** A subscript raises an ordinary exception. *)
Lemma getitem_key_raises obj key e :
  getitem_key obj key = Raises e -> isinstance_Exception e = true.
Proof.
  unfold getitem_key. destruct obj; try destruct (_ !! _); intros E; now simplify_eq.
Qed.

Lemma getitem_index_raises obj i e :
  getitem_index obj i = Raises e -> isinstance_Exception e = true.
Proof.
  unfold getitem_index. destruct obj; try destruct (_ ≫= _); intros E; now simplify_eq.
Qed.

Lemma claude_response_text_raises v e :
  LLM_proxy.claude_response_text v = Raises e -> isinstance_Exception e = true.
Proof.
  unfold LLM_proxy.claude_response_text, mbind, result_bind.
  destruct (getitem_key v "content") as [content|] eqn:E1;
    [|intros; simplify_eq; eauto using getitem_key_raises].
  destruct (getitem_index content 0) as [content_0|] eqn:E2;
    [|intros; simplify_eq; eauto using getitem_index_raises].
  apply getitem_key_raises.
Qed.

Lemma openai_response_text_raises v e :
  LLM_proxy.openai_response_text v = Raises e -> isinstance_Exception e = true.
Proof.
  unfold LLM_proxy.openai_response_text, mbind, result_bind.
  destruct (getitem_key v "choices") as [choices|] eqn:E1;
    [|intros; simplify_eq; eauto using getitem_key_raises].
  destruct (getitem_index choices 0) as [choices_0|] eqn:E2;
    [|intros; simplify_eq; eauto using getitem_index_raises].
  destruct (getitem_key choices_0 "message") as [message|] eqn:E3;
    [|intros; simplify_eq; eauto using getitem_key_raises].
  apply getitem_key_raises.
Qed.

Lemma relayed_lacking extract response e :
  (forall v e', extract v = Raises e' -> isinstance_Exception e' = true) ->
  requests.status_code response = 200 ->
  lacks_shape extract response e ->
  relayed extract (Returns response) = Returns (error_envelope e).
Proof.
  intros Hex Hst Hlack. rewrite relayed_200 by assumption.
  destruct Hlack as [[Hjson He]|(v & Hjson & Hv)];
    rewrite Hjson; unfold mbind, result_bind, caught.
  - now rewrite He.
  - now rewrite Hv, (Hex _ _ Hv).
Qed.

Lemma caught_ok e r : caught e = Returns r -> envelope_invariant (flask.body r).
Proof.
  unfold caught. destruct (isinstance_Exception e); intros E; simplify_eq.
  apply error_envelope_ok.
Qed.

Lemma relayed_ok extract answer r :
  relayed extract answer = Returns r -> envelope_invariant (flask.body r).
Proof.
  unfold relayed. destruct answer as [response|e]; [|apply caught_ok].
  destruct (requests.status_code response =? 200).
  - destruct (requests.response_json response ≫= extract); [|apply caught_ok].
    intros E; simplify_eq. apply success_envelope_ok.
  - intros E; simplify_eq. apply upstream_error_envelope_ok.
Qed.
End Run.

(** ** The claims *)

Section Claims.
Context `{PyRuntime}.

(** C1.  For every pair of strings [question], [freemind_xml] in the inbound
    object, the prompt each handler ([/api/claude], [/api/chatgpt]) places
    into the payload it sends is the fixed instruction, then [question],
    then two newlines, then [freemind_xml], nothing escaped or changed. *)
Theorem prompt_is_concatenation
    (claude_key openai_key : string) (net : network) (request : flask.Request)
    (w : world) (d : gmap string pyval) (question freemind_xml : string) :
  flask.json request = Returns (PDict d) ->
  d !! "question" = Some (PStr question) ->
  d !! "freemind_xml" = Some (PStr freemind_xml) ->
  let prompt :=
    PStr ("Using the mind map represented by the following Freemind XML, please answer the following question: "
          +:+ question +:+ NL +:+ NL +:+ freemind_xml) in
  (exists rq,
      wire (snd (LLM_proxy.proxy_to_claude claude_key net request w)) = wire w ++ [rq]
      /\ payload_prompt (requests.json rq) = Returns prompt)
  /\ (exists rq,
      wire (snd (LLM_proxy.proxy_to_chatgpt openai_key net request w)) = wire w ++ [rq]
      /\ payload_prompt (requests.json rq) = Returns prompt).
Proof.
  intros Hd Hq Hx prompt. split.
  - exists (claude_sends claude_key d). split; [now apply claude_run|].
    unfold claude_sends, LLM_proxy.claude_message.
    rewrite (field_present _ _ _ Hq), (field_present _ _ _ Hx), prompt_of_strings.
    reflexivity.
  - exists (chatgpt_sends openai_key d). split; [now apply chatgpt_run|].
    unfold chatgpt_sends, LLM_proxy.chatgpt_message.
    rewrite (field_present _ _ _ Hq), (field_present _ _ _ Hx), prompt_of_strings.
    reflexivity.
Qed.

(** C2.  When the provider answers the request a handler has sent with a
    status other than 200, the handler answers its caller with status 500
    and the body [{success: false, error: "API error: <status>",
    details: <raw upstream body>}]: the upstream status is reported in
    [error] and never used as the status of the answer. *)
Theorem upstream_error_remapped_to_500
    (key : string) (net : network) (request : flask.Request) (w : world)
    (rq : requests.Request) (response : requests.Response) :
  net rq = Returns response ->
  requests.status_code response <> 200 ->
  let answer :=
    Returns {| flask.body :=
                 {[ "success" := PBool false;
                    "error" := PStr ("API error: " +:+ pretty (requests.status_code response));
                    "details" := PStr (requests.text response) ]};
               flask.status := 500 |} in
  (wire (snd (LLM_proxy.proxy_to_claude key net request w)) = wire w ++ [rq] ->
     fst (LLM_proxy.proxy_to_claude key net request w) = answer)
  /\ (wire (snd (LLM_proxy.proxy_to_chatgpt key net request w)) = wire w ++ [rq] ->
     fst (LLM_proxy.proxy_to_chatgpt key net request w) = answer).
Proof.
  intros Hnet Hne answer. split; intros Hsent.
  - apply claude_sent in Hsent as [_ ->]. rewrite Hnet. now apply relayed_non_200.
  - apply chatgpt_sent in Hsent as [_ ->]. rewrite Hnet. now apply relayed_non_200.
Qed.

(** C3.  When the provider answers the request a handler has sent with
    status 200 and a well-formed body, the handler answers with status 200
    and [{success: true, response: t}], [t] being [content[0].text] for
    Claude and [choices[0].message.content] for ChatGPT, as it is. *)
Theorem well_formed_answer_relayed
    (key : string) (net : network) (request : flask.Request) (w : world)
    (rq : requests.Request) (response : requests.Response)
    (body : gmap string pyval) (t : pyval) :
  net rq = Returns response ->
  requests.status_code response = 200 ->
  requests.response_json response = Returns (PDict body) ->
  let answer :=
    Returns {| flask.body := {[ "success" := PBool true; "response" := t ]};
               flask.status := 200 |} in
  (forall block rest,
      body !! "content" = Some (PList (PDict block :: rest)) ->
      block !! "text" = Some t ->
      wire (snd (LLM_proxy.proxy_to_claude key net request w)) = wire w ++ [rq] ->
      fst (LLM_proxy.proxy_to_claude key net request w) = answer)
  /\ (forall choice rest message,
      body !! "choices" = Some (PList (PDict choice :: rest)) ->
      choice !! "message" = Some (PDict message) ->
      message !! "content" = Some t ->
      wire (snd (LLM_proxy.proxy_to_chatgpt key net request w)) = wire w ++ [rq] ->
      fst (LLM_proxy.proxy_to_chatgpt key net request w) = answer).
Proof.
  intros Hnet Hst Hjson answer. split.
  - intros block rest Hcontent Htext Hsent.
    apply claude_sent in Hsent as [_ ->]. rewrite Hnet, relayed_200, Hjson by assumption.
    unfold mbind, result_bind, LLM_proxy.claude_response_text, mbind, result_bind.
    unfold getitem_key at 1. rewrite Hcontent, getitem_index_first.
    unfold getitem_key. now rewrite Htext.
  - intros choice rest message Hchoices Hmessage Hcontent Hsent.
    apply chatgpt_sent in Hsent as [_ ->]. rewrite Hnet, relayed_200, Hjson by assumption.
    unfold mbind, result_bind, LLM_proxy.openai_response_text, mbind, result_bind.
    unfold getitem_key at 1. rewrite Hchoices, getitem_index_first.
    unfold getitem_key at 1. rewrite Hmessage.
    unfold getitem_key. now rewrite Hcontent.
Qed.

(** C4, as the code has it.  Every exception [e] that is an instance of
    [Exception] and is raised inside the [try] suite of a handler (by
    [request.json], by [.get], by [requests.post], by [response.json()] or
    by a subscript) is caught: the handler answers with status 500 and
    [{success: false, error: str(e)}], and no such exception leaves the
    handler.  [error] is [str(e)] as it is, empty when [str(e)] is. *)
Theorem exception_is_caught_and_stringified
    (key : string) (net : network) (request : flask.Request) (w w' : world)
    (e : pyexn) :
  isinstance_Exception e = true ->
  let answer :=
    Returns {| flask.body := {[ "success" := PBool false; "error" := PStr (str_exn e) ]};
               flask.status := 500 |} in
  (LLM_proxy.claude_try key net request w = (Raises e, w') ->
     LLM_proxy.proxy_to_claude key net request w = (answer, w'))
  /\ (LLM_proxy.chatgpt_try key net request w = (Raises e, w') ->
     LLM_proxy.proxy_to_chatgpt key net request w = (answer, w'))
  /\ fst (LLM_proxy.proxy_to_claude key net request w) <> Raises e
  /\ fst (LLM_proxy.proxy_to_chatgpt key net request w) <> Raises e.
Proof.
  intros He answer. repeat split.
  - intros Htry. unfold LLM_proxy.proxy_to_claude, try_except_Exception.
    now rewrite Htry, He.
  - intros Htry. unfold LLM_proxy.proxy_to_chatgpt, try_except_Exception.
    now rewrite Htry, He.
  - unfold LLM_proxy.proxy_to_claude, try_except_Exception.
    destruct (LLM_proxy.claude_try key net request w) as [[r|e'] w'']; [discriminate|].
    destruct (isinstance_Exception e') eqn:He'; [discriminate|].
    simpl. intros E. simplify_eq. congruence.
  - unfold LLM_proxy.proxy_to_chatgpt, try_except_Exception.
    destruct (LLM_proxy.chatgpt_try key net request w) as [[r|e'] w'']; [discriminate|].
    destruct (isinstance_Exception e') eqn:He'; [discriminate|].
    simpl. intros E. simplify_eq. congruence.
Qed.

(** C5, as the code has it.  For every 200 answer to the request a handler
    has sent whose body lacks the shape the handler extracts from
    ([content[0].text] for Claude, [choices[0].message.content] for
    ChatGPT), the failure [e] of the extraction is caught by the handler's
    [except] clause and folded into the envelope
    [{success: false, error: str(e)}] with status 500. *)
Theorem extraction_failure_is_folded
    (key : string) (net : network) (request : flask.Request) (w : world)
    (rq : requests.Request) (response : requests.Response) (e : pyexn) :
  net rq = Returns response ->
  requests.status_code response = 200 ->
  let answer :=
    Returns {| flask.body := {[ "success" := PBool false; "error" := PStr (str_exn e) ]};
               flask.status := 500 |} in
  (lacks_shape LLM_proxy.claude_response_text response e ->
     wire (snd (LLM_proxy.proxy_to_claude key net request w)) = wire w ++ [rq] ->
     fst (LLM_proxy.proxy_to_claude key net request w) = answer)
  /\ (lacks_shape LLM_proxy.openai_response_text response e ->
     wire (snd (LLM_proxy.proxy_to_chatgpt key net request w)) = wire w ++ [rq] ->
     fst (LLM_proxy.proxy_to_chatgpt key net request w) = answer).
Proof.
  intros Hnet Hst answer. split; intros Hlack Hsent.
  - apply claude_sent in Hsent as [_ ->]. rewrite Hnet.
    now apply relayed_lacking; [apply claude_response_text_raises| |].
  - apply chatgpt_sent in Hsent as [_ ->]. rewrite Hnet.
    now apply relayed_lacking; [apply openai_response_text_raises| |].
Qed.

(** C6.  No inbound request is turned away for a missing [question] or
    [freemind_xml].  Whenever the body is a JSON object, the handler goes on
    with the empty string in the place of each absent field: it sends its
    request to the provider, with a prompt that has nothing where the field
    would be, and its answer is the relay of what the provider answers to
    that request, [{success: true, response: t}] when that is a 200 answer
    in which the text [t] is found; all it does is what it does on the same
    object with the field set to the empty string.  The only requests turned
    away before the provider is called are those whose body is no object:
    [request.json] raised, or [.get] did for want of a dict. *)
Theorem missing_field_defaults_to_empty
    (claude_key openai_key : string) (net : network) (request : flask.Request)
    (w : world) :
  let text_of (field : option pyval) : string :=
    match field with
    | Some v => py_str v
    | None => ""
    end in
  let goes_on (handler : flask.Request -> M flask.Response)
              (extract : pyval -> result pyval) : Prop :=
    match flask.json request with
    | Returns (PDict d) =>
        (exists rq,
            wire (snd (handler request w)) = wire w ++ [rq]
            /\ payload_prompt (requests.json rq)
               = Returns (PStr ("Using the mind map represented by the following Freemind XML, please answer the following question: "
                                +:+ text_of (d !! "question") +:+ NL +:+ NL
                                +:+ text_of (d !! "freemind_xml")))
            /\ fst (handler request w) = relayed extract (net rq)
            /\ (forall response t,
                  net rq = Returns response ->
                  requests.status_code response = 200 ->
                  requests.response_json response ≫= extract = Returns t ->
                  fst (handler request w)
                  = Returns {| flask.body := {[ "success" := PBool true; "response" := t ]};
                               flask.status := 200 |}))
        /\ (forall name,
              name = "question" \/ name = "freemind_xml" ->
              d !! name = None ->
              handler request w
              = handler {| flask.json := Returns (PDict (<[name := PStr ""]> d)) |} w)
    | Returns data => handler request w = (caught (Builtin (AttributeError data "get")), w)
    | Raises e => handler request w = (caught e, w)
    end in
  goes_on (LLM_proxy.proxy_to_claude claude_key net) LLM_proxy.claude_response_text
  /\ goes_on (LLM_proxy.proxy_to_chatgpt openai_key net) LLM_proxy.openai_response_text.
Proof.
  intros text_of goes_on. subst text_of goes_on. cbv beta.
  destruct (inbound_cases (flask.json request)) as [[d Hd]|[e He]].
  - rewrite Hd. split; split.
    + destruct (claude_run claude_key net request w d Hd) as [Hw Hout].
      exists (claude_sends claude_key d). repeat split; [exact Hw| |exact Hout|].
      * rewrite <- (defaulted_prompt d). reflexivity.
      * intros response t Hnet Hst Ht. now rewrite Hout, Hnet, relayed_200, Ht.
    + intros name _ Hnone. now apply claude_absent_field.
    + destruct (chatgpt_run openai_key net request w d Hd) as [Hw Hout].
      exists (chatgpt_sends openai_key d). repeat split; [exact Hw| |exact Hout|].
      * rewrite <- (defaulted_prompt d). reflexivity.
      * intros response t Hnet Hst Ht. now rewrite Hout, Hnet, relayed_200, Ht.
    + intros name _ Hnone. now apply chatgpt_absent_field.
  - rewrite (claude_rejects _ _ _ _ _ He), (chatgpt_rejects _ _ _ _ _ He).
    destruct (flask.json request) as [[]|]; simplify_eq/=; split; reflexivity.
Qed.

(** C7.  Every envelope a handler answers with satisfies the invariant:
    with [success] true, [response] is present and [error] and [details]
    are absent; with [success] false, [error] is present. *)
Theorem envelope_invariant_holds
    (claude_key openai_key : string) (net : network) (request : flask.Request)
    (w : world) (r : flask.Response) :
  (fst (LLM_proxy.proxy_to_claude claude_key net request w) = Returns r ->
     envelope_invariant (flask.body r))
  /\ (fst (LLM_proxy.proxy_to_chatgpt openai_key net request w) = Returns r ->
     envelope_invariant (flask.body r)).
Proof.
  split; intros Hr;
    destruct (inbound_cases (flask.json request)) as [[d Hd]|[e He]].
  - destruct (claude_run claude_key net request w d Hd) as [_ Hout].
    rewrite Hout in Hr. eauto using relayed_ok.
  - rewrite (claude_rejects _ _ _ _ _ He) in Hr. eauto using caught_ok.
  - destruct (chatgpt_run openai_key net request w d Hd) as [_ Hout].
    rewrite Hout in Hr. eauto using relayed_ok.
  - rewrite (chatgpt_rejects _ _ _ _ _ He) in Hr. eauto using caught_ok.
Qed.

(** C8.  A handler sends at most one request, and only for an inbound JSON
    object [d].  Its payload is [{model, max_tokens: 4000, messages:
    [{role: "user", content: prompt}]}] with one message and a model
    that is a constant of the handler, whatever the request says; Claude's
    headers carry [x-api-key: <credential>] and [anthropic-version:
    2023-06-01], ChatGPT's carry [Authorization: Bearer <credential>]. *)
Theorem outbound_request_shape
    (claude_key openai_key : string) (net : network) (request : flask.Request)
    (w : world) :
  wire (snd (LLM_proxy.proxy_to_claude claude_key net request w)) =
    wire w ++
    match flask.json request with
    | Returns (PDict d) =>
        [ {| requests.url := "https://api.anthropic.com/v1/messages";
             requests.headers :=
               {[ "Content-Type" := "application/json";
                  "x-api-key" := claude_key;
                  "anthropic-version" := "2023-06-01" ]};
             requests.json :=
               PDict {[ "model" := PStr "claude-3-haiku-20240307";
                        "max_tokens" := PInt 4000;
                        "messages" := PList [PDict
                          {[ "role" := PStr "user";
                             "content" := PStr (LLM_proxy.claude_message
                                                  (field d "question")
                                                  (field d "freemind_xml")) ]}] ]} |} ]
    | _ => []
    end
  /\ wire (snd (LLM_proxy.proxy_to_chatgpt openai_key net request w)) =
    wire w ++
    match flask.json request with
    | Returns (PDict d) =>
        [ {| requests.url := "https://api.openai.com/v1/chat/completions";
             requests.headers :=
               {[ "Content-Type" := "application/json";
                  "Authorization" := "Bearer " +:+ openai_key ]};
             requests.json :=
               PDict {[ "model" := PStr "gpt-3.5-turbo";
                        "max_tokens" := PInt 4000;
                        "messages" := PList [PDict
                          {[ "role" := PStr "user";
                             "content" := PStr (LLM_proxy.chatgpt_message
                                                  (field d "question")
                                                  (field d "freemind_xml")) ]}] ]} |} ]
    | _ => []
    end.
Proof.
  destruct (inbound_cases (flask.json request)) as [[d Hd]|[e He]].
  - rewrite Hd. split; [now apply claude_run | now apply chatgpt_run].
  - rewrite (claude_rejects _ _ _ _ _ He), (chatgpt_rejects _ _ _ _ _ He).
    destruct (flask.json request) as [[]|]; simplify_eq/=;
      now rewrite app_nil_r.
Qed.

(** C9.  [ping()] answers [{success: true, message: "Pong!"}] with status
    200 whatever the request, and leaves the world as it found it. *)
Theorem ping_is_static (request : flask.Request) (w : world) :
  LLM_proxy.ping request w
  = (Returns {| flask.body := {[ "success" := PBool true; "message" := PStr "Pong!" ]};
                flask.status := 200 |}, w).
Proof. reflexivity. Qed.

(** C10.  The three copies of the prompt builder, in [/api/claude] and
    [/api/chatgpt] of [LLM_proxy.py] and in [claude_proxy.py], are the same
    function: on every [question] and [freemind_xml], strings or not, they
    build the same prompt. *)
Theorem prompt_builders_agree (question freemind_xml : pyval) :
  LLM_proxy.claude_message question freemind_xml
    = LLM_proxy.chatgpt_message question freemind_xml
  /\ LLM_proxy.chatgpt_message question freemind_xml
    = claude_proxy.claude_message question freemind_xml.
Proof. split; reflexivity. Qed.
End Claims.

(** ** The claims on sample requests *)

Section Samples.
Import Sample.

(** The built-ins on small inputs. *)
Example getitem_index_from_the_end :
  getitem_index (PList [PInt 1; PInt 2]) (-1) = Returns (PInt 2).
Proof. reflexivity. Qed.

Example getitem_index_empty_list :
  getitem_index (PList []) 0 = Raises (Builtin (IndexError (PList []))).
Proof. reflexivity. Qed.

Example getitem_index_of_a_string :
  getitem_index (PStr "abc") 0 = Returns (PStr "a").
Proof. reflexivity. Qed.

Example get_on_None :
  dict_get PNone "question" (PStr "") = Raises (Builtin (AttributeError PNone "get")).
Proof. reflexivity. Qed.

Example key_prefix : slice_to 10 claude_key = "sk-ant-api".
Proof. reflexivity. Qed.

Example status_in_words : fstring [Lit "API error: "; Fld (PInt 503)] = "API error: 503".
Proof. reflexivity. Qed.

(** The body [null] is no object: [.get] raises, the caller gets the envelope
    of the [except] clause and nothing is sent. *)
Example null_body :
  LLM_proxy.proxy_to_claude claude_key (answering (claude_says "Paris"))
    {| flask.json := Returns PNone |} w0
  = (Returns {| flask.body :=
                  {[ "success" := PBool false;
                     "error" := PStr "'NoneType' object has no attribute 'get'" ]};
                flask.status := 500 |}, w0).
Proof. vm_compute. reflexivity. Qed.

(** What a handler prints on the way ([<dict>] is where the sample runtime
    stands in for the [repr] of a dict). *)
Example printed_lines :
  stdout (snd (LLM_proxy.proxy_to_chatgpt openai_key (answering (refused 429 "slow down"))
                 capital_of_France w0))
  = [ "Using OpenAI API key: sk-proj-sa...";
      "Making request to OpenAI API with headers: <dict>";
      "Payload: <dict>";
      "OpenAI API response status: 429";
      "OpenAI API response headers: <dict>";
      "OpenAI API response text: slow down...";
      "Returning error response: <dict>" ].
Proof. vm_compute. reflexivity. Qed.

(** The example of the specification: the provider says "Paris". *)
Example relay_says_Paris :
  fst (LLM_proxy.proxy_to_chatgpt openai_key (answering (openai_says "Paris"))
         capital_of_France w0)
  = Returns {| flask.body := {[ "success" := PBool true; "response" := PStr "Paris" ]};
               flask.status := 200 |}.
Proof. vm_compute. reflexivity. Qed.

Lemma prompt_is_concatenation_witness :
  let prompt :=
    PStr ("Using the mind map represented by the following Freemind XML, please answer the following question: "
          +:+ question +:+ NL +:+ NL +:+ freemind_xml) in
  (exists rq,
      wire (snd (LLM_proxy.proxy_to_claude claude_key (answering (claude_says "Paris"))
                   capital_of_France w0)) = wire w0 ++ [rq]
      /\ payload_prompt (requests.json rq) = Returns prompt)
  /\ (exists rq,
      wire (snd (LLM_proxy.proxy_to_chatgpt openai_key (answering (claude_says "Paris"))
                   capital_of_France w0)) = wire w0 ++ [rq]
      /\ payload_prompt (requests.json rq) = Returns prompt).
Proof.
  apply (prompt_is_concatenation claude_key openai_key (answering (claude_says "Paris"))
           capital_of_France w0 inbound question freemind_xml); reflexivity.
Defined.

Lemma upstream_error_remapped_to_500_witness :
  let answer :=
    Returns {| flask.body :=
                 {[ "success" := PBool false;
                    "error" := PStr "API error: 401";
                    "details" := PStr "invalid x-api-key" ]};
               flask.status := 500 |} in
  fst (LLM_proxy.proxy_to_claude claude_key (answering (refused 401 "invalid x-api-key"))
         capital_of_France w0) = answer
  /\ fst (LLM_proxy.proxy_to_chatgpt openai_key (answering (refused 401 "invalid x-api-key"))
           capital_of_France w0) = answer.
Proof.
  split.
  - apply (proj1 (upstream_error_remapped_to_500 claude_key
                    (answering (refused 401 "invalid x-api-key")) capital_of_France w0
                    (claude_sends claude_key inbound) (refused 401 "invalid x-api-key")
                    eq_refl ltac:(discriminate))).
    vm_compute. reflexivity.
  - apply (proj2 (upstream_error_remapped_to_500 openai_key
                    (answering (refused 401 "invalid x-api-key")) capital_of_France w0
                    (chatgpt_sends openai_key inbound) (refused 401 "invalid x-api-key")
                    eq_refl ltac:(discriminate))).
    vm_compute. reflexivity.
Defined.

Lemma well_formed_answer_relayed_witness :
  let answer :=
    Returns {| flask.body := {[ "success" := PBool true; "response" := PStr "Paris" ]};
               flask.status := 200 |} in
  fst (LLM_proxy.proxy_to_claude claude_key (answering (claude_says "Paris"))
         capital_of_France w0) = answer
  /\ fst (LLM_proxy.proxy_to_chatgpt openai_key (answering (openai_says "Paris"))
           capital_of_France w0) = answer.
Proof.
  split.
  - apply (proj1 (well_formed_answer_relayed claude_key (answering (claude_says "Paris"))
                    capital_of_France w0 (claude_sends claude_key inbound)
                    (claude_says "Paris") _ (PStr "Paris") eq_refl eq_refl eq_refl)
             {[ "type" := PStr "text"; "text" := PStr "Paris" ]} []);
      vm_compute; reflexivity.
  - apply (proj2 (well_formed_answer_relayed openai_key (answering (openai_says "Paris"))
                    capital_of_France w0 (chatgpt_sends openai_key inbound)
                    (openai_says "Paris") _ (PStr "Paris") eq_refl eq_refl eq_refl)
             {[ "message" := PDict {[ "role" := PStr "assistant";
                                      "content" := PStr "Paris" ]} ]} []
             {[ "role" := PStr "assistant"; "content" := PStr "Paris" ]});
      vm_compute; reflexivity.
Defined.

(** C4 fails as stated: the message of an exception may be empty, and the
    handler passes it on as it is.  Here [requests.post] raises an ordinary
    exception built without arguments, as [requests.ConnectionError()]. *)
Lemma empty_message_counterexample :
  let e := Library true "" in
  let answer :=
    Returns {| flask.body := {[ "success" := PBool false; "error" := PStr "" ]};
               flask.status := 500 |} in
  isinstance_Exception e = true
  /\ fst (LLM_proxy.claude_try claude_key (failing e) capital_of_France w0) = Raises e
  /\ fst (LLM_proxy.proxy_to_claude claude_key (failing e) capital_of_France w0) = answer
  /\ fst (LLM_proxy.chatgpt_try openai_key (failing e) capital_of_France w0) = Raises e
  /\ fst (LLM_proxy.proxy_to_chatgpt openai_key (failing e) capital_of_France w0) = answer.
Proof. repeat split; vm_compute; reflexivity. Qed.

Lemma exception_is_caught_and_stringified_witness :
  let e := Library true "Connection refused" in
  let answer :=
    Returns {| flask.body := {[ "success" := PBool false;
                                "error" := PStr "Connection refused" ]};
               flask.status := 500 |} in
  fst (LLM_proxy.proxy_to_claude claude_key (failing e) capital_of_France w0) = answer
  /\ fst (LLM_proxy.proxy_to_chatgpt openai_key (failing e) capital_of_France w0) = answer.
Proof.
  intros e answer. split.
  - apply (f_equal fst
             (proj1 (exception_is_caught_and_stringified claude_key (failing e)
                       capital_of_France w0
                       (snd (LLM_proxy.claude_try claude_key (failing e) capital_of_France w0))
                       e eq_refl)
                ltac:(vm_compute; reflexivity))).
  - apply (f_equal fst
             (proj1 (proj2 (exception_is_caught_and_stringified openai_key (failing e)
                       capital_of_France w0
                       (snd (LLM_proxy.chatgpt_try openai_key (failing e) capital_of_France w0))
                       e eq_refl))
                ltac:(vm_compute; reflexivity))).
Defined.

(** A 200 answer with the body [{}]: the lookup of the first key raises
    [KeyError], and the caller receives the error envelope. *)
Lemma extraction_failure_is_folded_witness :
  fst (LLM_proxy.proxy_to_claude claude_key (answering empty_object) capital_of_France w0)
  = Returns {| flask.body := {[ "success" := PBool false; "error" := PStr "'content'" ]};
               flask.status := 500 |}
  /\ fst (LLM_proxy.proxy_to_chatgpt openai_key (answering empty_object) capital_of_France w0)
  = Returns {| flask.body := {[ "success" := PBool false; "error" := PStr "'choices'" ]};
               flask.status := 500 |}.
Proof.
  split.
  - change "'content'" with (str_exn (Builtin (KeyError (PStr "content")))).
    apply (proj1 (extraction_failure_is_folded claude_key (answering empty_object)
                    capital_of_France w0 (claude_sends claude_key inbound) empty_object
                    (Builtin (KeyError (PStr "content"))) eq_refl eq_refl)).
    + right. exists (PDict ∅). split; reflexivity.
    + vm_compute. reflexivity.
  - change "'choices'" with (str_exn (Builtin (KeyError (PStr "choices")))).
    apply (proj2 (extraction_failure_is_folded openai_key (answering empty_object)
                    capital_of_France w0 (chatgpt_sends openai_key inbound) empty_object
                    (Builtin (KeyError (PStr "choices"))) eq_refl eq_refl)).
    + right. exists (PDict ∅). split; reflexivity.
    + vm_compute. reflexivity.
Defined.

(** The inbound object has a [question] and no [freemind_xml]: the request
    goes to the provider with nothing after the two newlines, and the
    caller gets the provider's text. *)
Lemma missing_field_defaults_to_empty_witness :
  exists rq,
    wire (snd (LLM_proxy.proxy_to_claude claude_key (answering (claude_says "Paris"))
                 {| flask.json := Returns (PDict question_only) |} w0)) = wire w0 ++ [rq]
    /\ payload_prompt (requests.json rq)
       = Returns (PStr ("Using the mind map represented by the following Freemind XML, please answer the following question: "
                        +:+ question +:+ NL +:+ NL +:+ ""))
    /\ fst (LLM_proxy.proxy_to_claude claude_key (answering (claude_says "Paris"))
              {| flask.json := Returns (PDict question_only) |} w0)
       = Returns says_Paris.
Proof.
  destruct (proj1 (proj1 (missing_field_defaults_to_empty claude_key openai_key
                            (answering (claude_says "Paris"))
                            {| flask.json := Returns (PDict question_only) |} w0)))
    as (rq & Hwire & Hprompt & _ & Hsuccess).
  exists rq. split; [exact Hwire|]. split; [exact Hprompt|].
  exact (Hsuccess (claude_says "Paris") (PStr "Paris") eq_refl eq_refl eq_refl).
Defined.

Lemma envelope_invariant_holds_witness :
  envelope_invariant (flask.body says_Paris)
  /\ envelope_invariant (flask.body unauthorized).
Proof.
  split.
  - apply (proj1 (envelope_invariant_holds claude_key openai_key
                    (answering (claude_says "Paris")) capital_of_France w0 says_Paris)).
    vm_compute. reflexivity.
  - apply (proj2 (envelope_invariant_holds claude_key openai_key
                    (answering (refused 401 "invalid x-api-key")) capital_of_France w0
                    unauthorized)).
    vm_compute. reflexivity.
Defined.
End Samples.

(** C5 fails as stated: no 200 answer with a body that lacks the expected
    shape is left unfolded, by either handler. *)
Lemma no_unhandled_extraction_failure : ~ unhandled_extraction_failure.
Proof.
  intros (rt & key & net & request & w & rq & response & e & Hnet & Hst & Hcase).
  destruct Hcase as [(Hlack & Hsent & Hnot)|(Hlack & Hsent & Hnot)]; apply Hnot;
    exists (str_exn e).
  - apply claude_sent in Hsent as [_ ->]. rewrite Hnet.
    now apply relayed_lacking; [apply claude_response_text_raises| |].
  - apply chatgpt_sent in Hsent as [_ ->]. rewrite Hnet.
    now apply relayed_lacking; [apply openai_response_text_raises| |].
Qed.

(** ** Further properties of the handlers *)

Lemma append_assoc (s1 s2 s3 : string) : (s1 +:+ s2) +:+ s3 = s1 +:+ s2 +:+ s3.
Proof.
  induction s1 as [|c s1 IH]; [reflexivity|].
  change (String c ((s1 +:+ s2) +:+ s3) = String c (s1 +:+ s2 +:+ s3)). now rewrite IH.
Qed.

Ltac run_standalone :=
  cbv beta iota zeta delta
    [claude_proxy.proxy_to_claude claude_proxy.claude_try claude_proxy.claude_except
     try_except_Exception mbind M_bind bind lift print requests_post ret
     mret M_ret fst snd wire stdout
     dict_get field from_option id relayed caught result_bind
     flask.jsonify flask.with_status flask.body
     claude_sends set_model requests.url requests.headers requests.json
     upstream_error_envelope error_envelope].

Section MoreRun.
Context `{PyRuntime}.

Lemma caught_status e r :
  caught e = Returns r ->
  flask.status r = 500 /\ flask.body r !! "success" = Some (PBool false).
Proof.
  unfold caught. destruct (isinstance_Exception e); intros E; simplify_eq.
  split; reflexivity.
Qed.

Lemma relayed_status extract answer r :
  relayed extract answer = Returns r ->
  (flask.status r = 200 /\ flask.body r !! "success" = Some (PBool true))
  \/ (flask.status r = 500 /\ flask.body r !! "success" = Some (PBool false)).
Proof.
  unfold relayed. destruct answer as [response|e]; [|right; eauto using caught_status].
  destruct (requests.status_code response =? 200).
  - destruct (requests.response_json response ≫= extract);
      [|right; eauto using caught_status].
    intros E; simplify_eq. left. split; reflexivity.
  - intros E; simplify_eq. right. split; reflexivity.
Qed.

Lemma getitem_index_of_str s i x :
  getitem_index (PStr s) i = Returns x -> exists c, x = PStr (String c "").
Proof.
  unfold getitem_index. destruct (_ ≫= _); intros E; simplify_eq. eauto.
Qed.

Lemma getitem_key_returns obj key t :
  getitem_key obj key = Returns t <-> exists d, obj = PDict d /\ d !! key = Some t.
Proof.
  unfold getitem_key. split.
  - destruct obj; try discriminate. destruct (d !! key) eqn:E; intros E'; simplify_eq. eauto.
  - intros (d & -> & ->). reflexivity.
Qed.

Lemma getitem_index_0_returns obj x :
  getitem_index obj 0 = Returns x ->
  (exists rest, obj = PList (x :: rest)) \/ (exists s c, obj = PStr s /\ x = PStr (String c "")).
Proof.
  destruct obj as [| | | | s|l|d]; try discriminate.
  - intros E. right. destruct (getitem_index_of_str _ _ _ E) as [c ->]. eauto.
  - destruct l as [|y rest]; [discriminate|].
    rewrite getitem_index_first. intros E; simplify_eq. eauto.
Qed.

Lemma standalone_request key d :
  set_model "claude-3-opus-20240229" (claude_sends key d) =
  {| requests.url := "https://api.anthropic.com/v1/messages";
     requests.headers :=
       {[ "Content-Type" := "application/json";
          "x-api-key" := key;
          "anthropic-version" := "2023-06-01" ]};
     requests.json :=
       PDict {[ "model" := PStr "claude-3-opus-20240229";
                "max_tokens" := PInt 4000;
                "messages" := PList [PDict
                  {[ "role" := PStr "user";
                     "content" := PStr (claude_proxy.claude_message
                                          (field d "question") (field d "freemind_xml")) ]}] ]} |}.
Proof. unfold set_model, claude_sends. simpl. now rewrite insert_insert_eq. Qed.

Lemma standalone_run key net request w d :
  flask.json request = Returns (PDict d) ->
  wire (snd (claude_proxy.proxy_to_claude key net request w))
  = wire w ++ [set_model "claude-3-opus-20240229" (claude_sends key d)]
  /\ fst (claude_proxy.proxy_to_claude key net request w)
     = relayed claude_proxy.claude_response_text
         (net (set_model "claude-3-opus-20240229" (claude_sends key d))).
Proof.
  intros Hd. rewrite standalone_request. run_standalone. rewrite Hd. run_standalone.
  repeat (branch; run_standalone); rewrite ?fstring_status; split; reflexivity.
Qed.

Lemma standalone_rejects key net request w e :
  inbound_error (flask.json request) = Some e ->
  claude_proxy.proxy_to_claude key net request w = (caught e, w).
Proof.
  intros He. run_standalone. destruct (flask.json request) as [[]|]; simplify_eq/=;
    run_standalone; try branch; reflexivity.
Qed.
End MoreRun.

Section MoreHandlers.
Context `{PyRuntime}.

(** X1.  A request whose body is not a JSON object is turned away before
    anything happens: when [request.json] raises an ordinary exception, or
    yields a value that is no dict (so that [.get] raises [AttributeError]),
    the handler answers with status 500 and [{success: false, error:
    str(e)}], prints nothing and sends nothing. *)
Theorem non_object_body_is_rejected
    (claude_key openai_key : string) (net : network) (request : flask.Request)
    (w : world) (e : pyexn) :
  inbound_error (flask.json request) = Some e ->
  isinstance_Exception e = true ->
  let answer :=
    Returns {| flask.body := {[ "success" := PBool false; "error" := PStr (str_exn e) ]};
               flask.status := 500 |} in
  LLM_proxy.proxy_to_claude claude_key net request w = (answer, w)
  /\ LLM_proxy.proxy_to_chatgpt openai_key net request w = (answer, w).
Proof.
  intros He Hex answer.
  rewrite (claude_rejects _ _ _ _ _ He), (chatgpt_rejects _ _ _ _ _ He).
  unfold caught. now rewrite Hex.
Qed.

(** X2.  The status of an answer tells its [success] flag: a handler answers
    with status 200 and [success: true], or with status 500 and
    [success: false], and with nothing else. *)
Theorem status_tells_success
    (claude_key openai_key : string) (net : network) (request : flask.Request)
    (w : world) (r : flask.Response) :
  let told :=
    (flask.status r = 200 /\ flask.body r !! "success" = Some (PBool true))
    \/ (flask.status r = 500 /\ flask.body r !! "success" = Some (PBool false)) in
  (fst (LLM_proxy.proxy_to_claude claude_key net request w) = Returns r -> told)
  /\ (fst (LLM_proxy.proxy_to_chatgpt openai_key net request w) = Returns r -> told).
Proof.
  intros told. subst told. split; intros Hr;
    destruct (inbound_cases (flask.json request)) as [[d Hd]|[e He]].
  - destruct (claude_run claude_key net request w d Hd) as [_ Hout].
    rewrite Hout in Hr. exact (relayed_status _ _ _ Hr).
  - rewrite (claude_rejects _ _ _ _ _ He) in Hr. right. exact (caught_status _ _ Hr).
  - destruct (chatgpt_run openai_key net request w d Hd) as [_ Hout].
    rewrite Hout in Hr. exact (relayed_status _ _ _ Hr).
  - rewrite (chatgpt_rejects _ _ _ _ _ He) in Hr. right. exact (caught_status _ _ Hr).
Qed.

(** X3.  A field that is present is never replaced by the default, whatever
    its value: the prompt carries [str(value)] in its place, which for the
    JSON values [null], [true], [false] and an integer is the text [None],
    [True], [False] and the decimal numeral. *)
Theorem present_field_is_formatted_with_str
    (claude_key openai_key : string) (net : network) (request : flask.Request)
    (w : world) (d : gmap string pyval) (question freemind_xml : pyval) :
  flask.json request = Returns (PDict d) ->
  d !! "question" = Some question ->
  d !! "freemind_xml" = Some freemind_xml ->
  let prompt :=
    PStr ("Using the mind map represented by the following Freemind XML, please answer the following question: "
          +:+ py_str question +:+ NL +:+ NL +:+ py_str freemind_xml) in
  ((exists rq,
      wire (snd (LLM_proxy.proxy_to_claude claude_key net request w)) = wire w ++ [rq]
      /\ payload_prompt (requests.json rq) = Returns prompt)
   /\ (exists rq,
      wire (snd (LLM_proxy.proxy_to_chatgpt openai_key net request w)) = wire w ++ [rq]
      /\ payload_prompt (requests.json rq) = Returns prompt))
  /\ py_str PNone = "None"
  /\ py_str (PBool true) = "True"
  /\ py_str (PBool false) = "False"
  /\ (forall z, py_str (PInt z) = pretty z).
Proof.
  intros Hd Hq Hx prompt. split; [split|repeat split; reflexivity].
  - exists (claude_sends claude_key d). split; [now apply claude_run|].
    unfold claude_sends, LLM_proxy.claude_message.
    rewrite (field_present _ _ _ Hq), (field_present _ _ _ Hx), prompt_of_values.
    reflexivity.
  - exists (chatgpt_sends openai_key d). split; [now apply chatgpt_run|].
    unfold chatgpt_sends, LLM_proxy.chatgpt_message.
    rewrite (field_present _ _ _ Hq), (field_present _ _ _ Hx), prompt_of_values.
    reflexivity.
Qed.

(** X4.  The prompt does not tell where the question ends: a question that
    contains two newlines and the map after it are put together exactly as
    the part of the question before the newlines and a map that begins with
    the rest.  On two such requests a handler does the same, answer and
    effects alike. *)
Theorem prompt_does_not_delimit_the_question
    (claude_key openai_key : string) (net : network) (w : world)
    (d1 d2 : gmap string pyval) (q a b : string) :
  d1 !! "question" = Some (PStr (q +:+ NL +:+ NL +:+ a)) ->
  d1 !! "freemind_xml" = Some (PStr b) ->
  d2 !! "question" = Some (PStr q) ->
  d2 !! "freemind_xml" = Some (PStr (a +:+ NL +:+ NL +:+ b)) ->
  let request1 := {| flask.json := Returns (PDict d1) |} in
  let request2 := {| flask.json := Returns (PDict d2) |} in
  LLM_proxy.proxy_to_claude claude_key net request1 w
    = LLM_proxy.proxy_to_claude claude_key net request2 w
  /\ LLM_proxy.proxy_to_chatgpt openai_key net request1 w
    = LLM_proxy.proxy_to_chatgpt openai_key net request2 w.
Proof.
  intros Hq1 Hx1 Hq2 Hx2 request1 request2. subst request1 request2.
  assert (LLM_proxy.claude_message (PStr (q +:+ NL +:+ NL +:+ a)) (PStr b)
          = LLM_proxy.claude_message (PStr q) (PStr (a +:+ NL +:+ NL +:+ b))) as Hm.
  { unfold LLM_proxy.claude_message. rewrite !prompt_of_strings.
    f_equal. now rewrite !append_assoc. }
  split; run; cbn [flask.json]; cbv beta iota; rewrite Hq1, Hx1, Hq2, Hx2;
    cbv beta iota;
    [ | change LLM_proxy.chatgpt_message with LLM_proxy.claude_message ];
    now rewrite Hm.
Qed.

(** X5.  The text of a Claude answer is found exactly when the body is an
    object whose [content] is a list that is not empty and begins with an
    object that has a [text]; the text is that entry, whatever follows it in
    the list.  Any other body, a [content] that is a string included, makes
    the extraction raise. *)
Theorem claude_text_is_found_iff (v t : pyval) :
  LLM_proxy.claude_response_text v = Returns t
  <-> exists body block rest,
        v = PDict body
        /\ body !! "content" = Some (PList (PDict block :: rest))
        /\ block !! "text" = Some t.
Proof.
  unfold LLM_proxy.claude_response_text, mbind, result_bind. split.
  - destruct (getitem_key v "content") as [content|] eqn:E1; [|discriminate].
    destruct (getitem_index content 0) as [content_0|] eqn:E2; [|discriminate].
    intros E3.
    apply getitem_key_returns in E1 as (body & -> & Hcontent).
    apply getitem_key_returns in E3 as (block & -> & Htext).
    apply getitem_index_0_returns in E2 as [[rest ->]|(s & c & _ & [=])].
    eauto 10.
  - intros (body & block & rest & -> & Hcontent & Htext).
    unfold getitem_key at 1. rewrite Hcontent, getitem_index_first.
    unfold getitem_key. now rewrite Htext.
Qed.

(** X6.  The text of a ChatGPT answer is found exactly when the body is an
    object whose [choices] is a list that is not empty and begins with an
    object whose [message] is an object that has a [content]. *)
Theorem openai_text_is_found_iff (v t : pyval) :
  LLM_proxy.openai_response_text v = Returns t
  <-> exists body choice rest message,
        v = PDict body
        /\ body !! "choices" = Some (PList (PDict choice :: rest))
        /\ choice !! "message" = Some (PDict message)
        /\ message !! "content" = Some t.
Proof.
  unfold LLM_proxy.openai_response_text, mbind, result_bind. split.
  - destruct (getitem_key v "choices") as [choices|] eqn:E1; [|discriminate].
    destruct (getitem_index choices 0) as [choices_0|] eqn:E2; [|discriminate].
    destruct (getitem_key choices_0 "message") as [message|] eqn:E3; [|discriminate].
    intros E4.
    apply getitem_key_returns in E1 as (body & -> & Hchoices).
    apply getitem_key_returns in E3 as (choice & -> & Hmessage).
    apply getitem_key_returns in E4 as (msg & -> & Hcontent).
    apply getitem_index_0_returns in E2 as [[rest ->]|(s & c & _ & [=])].
    eauto 10.
  - intros (body & choice & rest & message & -> & Hchoices & Hmessage & Hcontent).
    unfold getitem_key at 1. rewrite Hchoices, getitem_index_first.
    unfold getitem_key at 1. rewrite Hmessage.
    unfold getitem_key. now rewrite Hcontent.
Qed.

(** X9.  The handler of [claude_proxy.py] is the [/api/claude] handler of
    [LLM_proxy.py] with another model: the request it sends is the other's
    with [model] set to [claude-3-opus-20240229], it sends none where the
    other sends none, and it gives its caller the answer the other gives
    behind a network that makes that change. *)
Theorem standalone_proxy_differs_in_model
    (key : string) (net : network) (request : flask.Request) (w : world) :
  let opus := set_model "claude-3-opus-20240229" in
  let combined := LLM_proxy.proxy_to_claude key (fun rq => net (opus rq)) request w in
  let standalone := claude_proxy.proxy_to_claude key net request w in
  fst standalone = fst combined
  /\ (forall rq, wire (snd combined) = wire w ++ [rq] ->
        wire (snd standalone) = wire w ++ [opus rq])
  /\ (wire (snd combined) = wire w -> wire (snd standalone) = wire w).
Proof.
  intros opus combined standalone. subst opus combined standalone.
  destruct (inbound_cases (flask.json request)) as [[d Hd]|[e He]].
  - destruct (claude_run key (fun rq => net (set_model "claude-3-opus-20240229" rq))
                request w d Hd) as [Hw Hout].
    destruct (standalone_run key net request w d Hd) as [Hw' Hout'].
    rewrite Hw, Hout, Hw', Hout'. repeat split.
    + intros rq Hrq. apply app_inj_tail in Hrq as [_ <-]. reflexivity.
    + intros Hrq. symmetry in Hrq. now apply not_longer in Hrq.
  - rewrite (claude_rejects _ _ _ _ _ He), (standalone_rejects _ _ _ _ _ He).
    repeat split. intros rq Hrq. simpl in Hrq. now apply not_longer in Hrq.
Qed.
End MoreHandlers.

(** ** The key loaders *)

Ltac run_keys :=
  cbv beta iota zeta delta
    [LLM_proxy.get_claude_api_key_from_file LLM_proxy.get_openai_api_key
     LLM_proxy.load_module claude_proxy.get_api_key_from_file claude_proxy.load_module
     check_api_key.read_api_key check_api_key.main claude_key_fallback
     try_except_Exception mbind M_bind bind lift print ret mret M_ret fst snd].

Section StripFacts.
Context `{PyChars}.

Lemma lstrip_starts_clean s : starts_clean (lstrip s).
Proof.
  induction s as [|c s IH]; simpl; [exact I|].
  destruct (isspace c) eqn:E; [exact IH | exact E].
Qed.

Lemma rstrip_starts_clean s : starts_clean s -> starts_clean (rstrip s).
Proof.
  destruct s as [|c s]; simpl; [trivial|]. intros E.
  destruct (rstrip s); [rewrite E|]; exact E.
Qed.

Lemma rstrip_ends_clean s : ends_clean (rstrip s).
Proof.
  unfold ends_clean. induction s as [|c s IH]; simpl; [exact I|].
  destruct (rstrip s) as [|c' r] eqn:E.
  - destruct (isspace c) eqn:Ec; simpl; [exact I | exact Ec].
  - exact IH.
Qed.

Lemma lstrip_clean s : starts_clean s -> lstrip s = s.
Proof. destruct s as [|c s]; simpl; [reflexivity|]. now intros ->. Qed.

Lemma lstrip_blank pre s : blank pre = true -> lstrip (pre +:+ s) = lstrip s.
Proof.
  induction pre as [|c pre IH]; [reflexivity|]. simpl blank.
  intros [Hc Hpre]%andb_true_iff.
  change (String c pre +:+ s) with (String c (pre +:+ s)). simpl lstrip.
  rewrite Hc. auto.
Qed.

Lemma rstrip_blank post : blank post = true -> rstrip post = "".
Proof.
  induction post as [|c post IH]; [reflexivity|]. simpl.
  intros [Hc Hpost]%andb_true_iff. now rewrite IH, Hc.
Qed.

Lemma rstrip_app_blank k post : blank post = true -> rstrip (k +:+ post) = rstrip k.
Proof.
  intros Hpost. induction k as [|c k IH]; [now apply rstrip_blank|].
  change (String c k +:+ post) with (String c (k +:+ post)). simpl rstrip.
  now rewrite IH.
Qed.

Lemma rstrip_clean k : ends_clean k -> rstrip k = k.
Proof.
  unfold ends_clean. induction k as [|c k IH]; [reflexivity|].
  destruct k as [|c' k'].
  - simpl. now intros ->.
  - intros Hk. change (last_char (String c (String c' k')))
      with (last_char (String c' k')) in Hk.
    simpl rstrip in *. now rewrite (IH Hk).
Qed.

Lemma starts_clean_app k post : k <> "" -> starts_clean k -> starts_clean (k +:+ post).
Proof. destruct k; [congruence|]. intros _ E. exact E. Qed.

(** The key between two runs of whitespace is what [strip] leaves. *)
Lemma py_strip_middle pre key post :
  blank pre = true -> blank post = true -> starts_clean key -> ends_clean key ->
  py_strip (pre +:+ key +:+ post) = key.
Proof.
  intros Hpre Hpost Hstart Hend. unfold py_strip. rewrite lstrip_blank by assumption.
  destruct key as [|c key].
  - change ("" +:+ post) with post.
    rewrite <- (append_empty_r post), lstrip_blank by assumption. reflexivity.
  - rewrite lstrip_clean by (apply starts_clean_app; [discriminate | assumption]).
    rewrite rstrip_app_blank by assumption. now apply rstrip_clean.
Qed.

Lemma py_strip_blank s : blank s = true -> py_strip s = "".
Proof.
  intros Hs. unfold py_strip.
  rewrite <- (append_empty_r s), lstrip_blank by assumption. reflexivity.
Qed.

Lemma lstrip_not_blank s :
  blank s = false -> exists c t, lstrip s = String c t /\ isspace c = false.
Proof.
  induction s as [|c s IH]; simpl; [discriminate|].
  destruct (isspace c) eqn:Ec; simpl; eauto.
Qed.

Lemma py_strip_not_blank s : blank s = false -> truthy (Some (py_strip s)) = true.
Proof.
  intros Hs. destruct (lstrip_not_blank s Hs) as (c & t & Hl & Hc).
  unfold py_strip. rewrite Hl. simpl. rewrite Hc. now destruct (rstrip t).
Qed.
End StripFacts.

Section KeyRuns.
Context `{PyRuntime} `{PyChars}.

Lemma try_never_leaks {A} (body : M A) (handler : pyexn -> M A) (w : world) (e : pyexn) :
  (forall e' w', exists a w'', handler e' w' = (Returns a, w'')) ->
  fst (try_except_Exception body handler w) = Raises e ->
  isinstance_Exception e = false.
Proof.
  intros Hh. unfold try_except_Exception.
  destruct (body w) as [[a|e'] w']; [discriminate|].
  destruct (isinstance_Exception e') eqn:He'.
  - destruct (Hh e' w') as (a & w'' & ->). discriminate.
  - simpl. intros E. now simplify_eq.
Qed.

Lemma claude_key_read sys w cwd files content :
  os.getcwd sys = Returns cwd ->
  os.listdir sys = Returns files ->
  os.read sys ".private" = Returns content ->
  fst (LLM_proxy.get_claude_api_key_from_file sys w) = Returns (py_strip content).
Proof.
  intros Hcwd Hfiles Hread. run_keys. rewrite Hcwd, Hfiles. cbv beta iota.
  destruct (bool_decide _); cbv beta iota; now rewrite Hread.
Qed.

Lemma claude_key_fell_back sys w cwd files e :
  os.getcwd sys = Raises e
  \/ (os.getcwd sys = Returns cwd /\ os.listdir sys = Raises e)
  \/ (os.getcwd sys = Returns cwd /\ os.listdir sys = Returns files
      /\ os.read sys ".private" = Raises e) ->
  isinstance_Exception e = true ->
  fst (LLM_proxy.get_claude_api_key_from_file sys w) = Returns (claude_key_fallback sys).
Proof.
  intros Hcase He. run_keys.
  destruct Hcase as [Hcwd|[[Hcwd Hfiles]|(Hcwd & Hfiles & Hread)]].
  - rewrite Hcwd. cbv beta iota. now rewrite He.
  - rewrite Hcwd, Hfiles. cbv beta iota. now rewrite He.
  - rewrite Hcwd, Hfiles. cbv beta iota.
    destruct (bool_decide _); cbv beta iota; rewrite Hread; cbv beta iota; now rewrite He.
Qed.

Lemma openai_key_read sys w content :
  os.path_exists sys ".openai_key" = true ->
  os.read sys ".openai_key" = Returns content ->
  fst (LLM_proxy.get_openai_api_key sys w) = Returns (py_strip content).
Proof. intros Hex Hread. run_keys. now rewrite Hex, Hread. Qed.

Lemma claude_key_sends_nothing sys w :
  wire (snd (LLM_proxy.get_claude_api_key_from_file sys w)) = wire w.
Proof. run_keys. repeat (branch; cbv beta iota); reflexivity. Qed.

Lemma openai_key_sends_nothing sys w :
  wire (snd (LLM_proxy.get_openai_api_key sys w)) = wire w.
Proof. run_keys. repeat (branch; cbv beta iota); reflexivity. Qed.

Lemma load_module_keys sys w content1 content2 cwd files :
  os.getcwd sys = Returns cwd ->
  os.listdir sys = Returns files ->
  os.read sys ".private" = Returns content1 ->
  os.path_exists sys ".openai_key" = true ->
  os.read sys ".openai_key" = Returns content2 ->
  fst (LLM_proxy.load_module sys w) = Returns (py_strip content1, py_strip content2)
  /\ wire (snd (LLM_proxy.load_module sys w)) = wire w.
Proof.
  intros Hcwd Hfiles Hread1 Hex Hread2. run_keys. rewrite Hcwd, Hfiles. cbv beta iota.
  destruct (bool_decide _); cbv beta iota; rewrite Hread1; cbv beta iota;
    rewrite Hex, Hread2; split; reflexivity.
Qed.
End KeyRuns.

Section Keys.
Context `{PyRuntime} `{PyChars}.

(** X10.  When the directory can be named and listed and [.private] can be
    read, [get_claude_api_key_from_file] returns the content of the file
    without the whitespace at its two ends, whether or not the listing shows
    the file and whatever the environment holds: the key it returns neither
    begins nor ends with whitespace. *)
Theorem key_from_file_is_stripped
    (sys : os.system) (w : world) (cwd : string) (files : list string) (content : string) :
  os.getcwd sys = Returns cwd ->
  os.listdir sys = Returns files ->
  os.read sys ".private" = Returns content ->
  exists key,
    fst (LLM_proxy.get_claude_api_key_from_file sys w) = Returns key
    /\ key = py_strip content
    /\ starts_clean key
    /\ ends_clean key.
Proof.
  intros Hcwd Hfiles Hread. exists (py_strip content).
  split; [now apply (claude_key_read sys w cwd files)|].
  split; [reflexivity|]. unfold py_strip. split.
  - apply rstrip_starts_clean, lstrip_starts_clean.
  - apply rstrip_ends_clean.
Qed.

(** X11.  Whitespace around the key in [.private], a final newline for one,
    does no harm: when the file holds whitespace, then a key that neither
    begins nor ends with whitespace, then whitespace, the loader returns
    that key. *)
Theorem whitespace_around_the_key_is_dropped
    (sys : os.system) (w : world) (cwd : string) (files : list string)
    (pre key post : string) :
  os.getcwd sys = Returns cwd ->
  os.listdir sys = Returns files ->
  os.read sys ".private" = Returns (pre +:+ key +:+ post) ->
  blank pre = true -> blank post = true ->
  starts_clean key -> ends_clean key ->
  fst (LLM_proxy.get_claude_api_key_from_file sys w) = Returns key.
Proof.
  intros Hcwd Hfiles Hread Hpre Hpost Hstart Hend.
  rewrite (claude_key_read sys w cwd files _ Hcwd Hfiles Hread).
  now rewrite py_strip_middle.
Qed.

(** X12.  When naming the directory, listing it or reading [.private] raises
    an ordinary exception, [get_claude_api_key_from_file] returns the
    variable [CLAUDE_API_KEY] of the environment, or the placeholder
    [YOUR_API_KEY] when it is not set.  The listing is there for the log
    only, and still a directory that cannot be listed costs the key of a
    file that could be read. *)
Theorem failed_read_falls_back_to_environment
    (sys : os.system) (w : world) (cwd : string) (files : list string) (e : pyexn) :
  os.getcwd sys = Raises e
  \/ (os.getcwd sys = Returns cwd /\ os.listdir sys = Raises e)
  \/ (os.getcwd sys = Returns cwd /\ os.listdir sys = Returns files
      /\ os.read sys ".private" = Raises e) ->
  isinstance_Exception e = true ->
  fst (LLM_proxy.get_claude_api_key_from_file sys w)
  = Returns (default "YOUR_API_KEY" (os.environ sys !! "CLAUDE_API_KEY")).
Proof. apply claude_key_fell_back. Qed.

(** X13.  No ordinary exception leaves a key loader, and a loader sends
    nothing: whatever the operating system does, the three loaders end
    without raising an instance of [Exception] and leave the wire as it
    was. *)
Theorem loaders_catch_and_send_nothing (sys : os.system) (w : world) (e : pyexn) :
  isinstance_Exception e = true ->
  (fst (LLM_proxy.get_claude_api_key_from_file sys w) <> Raises e
   /\ wire (snd (LLM_proxy.get_claude_api_key_from_file sys w)) = wire w)
  /\ (fst (LLM_proxy.get_openai_api_key sys w) <> Raises e
      /\ wire (snd (LLM_proxy.get_openai_api_key sys w)) = wire w)
  /\ (fst (check_api_key.read_api_key sys w) <> Raises e
      /\ wire (snd (check_api_key.read_api_key sys w)) = wire w).
Proof.
  intros He.
  assert (forall A (c : M A) (h : pyexn -> M A),
             (forall e' w', exists a w'', h e' w' = (Returns a, w'')) ->
             fst (try_except_Exception c h w) <> Raises e) as Hcatch.
  { intros A c h Hh E. apply try_never_leaks in E; [congruence | exact Hh]. }
  repeat split.
  - apply Hcatch. intros e' w'. run_keys. eauto.
  - apply claude_key_sends_nothing.
  - apply Hcatch. intros e' w'. run_keys. eauto.
  - apply openai_key_sends_nothing.
  - apply Hcatch. intros e' w'. run_keys. eauto.
  - run_keys. repeat (branch; cbv beta iota); reflexivity.
Qed.

(** X14.  Without a file [.openai_key], [get_openai_api_key] reads nothing
    from the disk and returns the variable [OPENAI_API_KEY] when it is set
    and not empty, the placeholder [YOUR_OPENAI_API_KEY] otherwise; the key
    it returns is never empty. *)
Theorem openai_key_without_file (sys : os.system) (w : world) :
  os.path_exists sys ".openai_key" = false ->
  exists key,
    fst (LLM_proxy.get_openai_api_key sys w) = Returns key
    /\ key = match os.environ sys !! "OPENAI_API_KEY" with
             | Some (String c k) => String c k
             | _ => "YOUR_OPENAI_API_KEY"
             end
    /\ key <> "".
Proof.
  intros Hex. run_keys. rewrite Hex.
  destruct (os.environ sys !! "OPENAI_API_KEY") as [[|c k]|]; simpl;
    eexists; (split; [reflexivity|]); split; (reflexivity || discriminate).
Qed.

(** X15.  A file [.openai_key] that can be read wins over the environment:
    [get_openai_api_key] returns its content without the whitespace at the
    two ends, whatever [OPENAI_API_KEY] holds. *)
Theorem openai_key_file_wins (sys : os.system) (w : world) (content : string) :
  os.path_exists sys ".openai_key" = true ->
  os.read sys ".openai_key" = Returns content ->
  exists key,
    fst (LLM_proxy.get_openai_api_key sys w) = Returns key
    /\ key = py_strip content
    /\ starts_clean key
    /\ ends_clean key.
Proof.
  intros Hex Hread. exists (py_strip content).
  split; [now apply openai_key_read|].
  split; [reflexivity|]. unfold py_strip. split.
  - apply rstrip_starts_clean, lstrip_starts_clean.
  - apply rstrip_ends_clean.
Qed.

(** X16.  An [OPENAI_API_KEY] set to the empty string is treated in two
    ways: with no file [.openai_key] the placeholder is returned in its
    place, and when the file is there and reading it raises an ordinary
    exception the empty string itself is returned. *)
Theorem empty_variable_is_kept_after_a_failed_read
    (sys : os.system) (w : world) (e : pyexn) :
  os.environ sys !! "OPENAI_API_KEY" = Some "" ->
  (os.path_exists sys ".openai_key" = false ->
     fst (LLM_proxy.get_openai_api_key sys w) = Returns "YOUR_OPENAI_API_KEY")
  /\ (os.path_exists sys ".openai_key" = true ->
      os.read sys ".openai_key" = Raises e ->
      isinstance_Exception e = true ->
      fst (LLM_proxy.get_openai_api_key sys w) = Returns "").
Proof.
  intros Henv. split.
  - intros Hex. run_keys. now rewrite Hex, Henv.
  - intros Hex Hread He. run_keys. now rewrite Hex, Hread, He, Henv.
Qed.

(** X17.  The three copies of the [.private] loader agree.  The one of
    [claude_proxy.py] is the one of [LLM_proxy.py]; [read_api_key] of
    [check_api_key.py] returns a key exactly when they return that key from
    the file, and [None] exactly when they fall back to the environment. *)
Theorem private_key_loaders_agree (sys : os.system) (w : world) :
  claude_proxy.get_api_key_from_file sys w = LLM_proxy.get_claude_api_key_from_file sys w
  /\ match fst (check_api_key.read_api_key sys w) with
     | Returns (Some key) =>
         fst (LLM_proxy.get_claude_api_key_from_file sys w) = Returns key
         /\ exists content, os.read sys ".private" = Returns content /\ key = py_strip content
     | Returns None =>
         fst (LLM_proxy.get_claude_api_key_from_file sys w)
         = Returns (default "YOUR_API_KEY" (os.environ sys !! "CLAUDE_API_KEY"))
     | Raises e =>
         fst (LLM_proxy.get_claude_api_key_from_file sys w) = Raises e
     end.
Proof.
  split; [reflexivity|]. run_keys.
  destruct (os.getcwd sys) as [cwd|e]; cbv beta iota;
    [|destruct (isinstance_Exception e); reflexivity].
  destruct (os.listdir sys) as [files|e]; cbv beta iota;
    [|destruct (isinstance_Exception e); reflexivity].
  destruct (bool_decide _); cbv beta iota;
    (destruct (os.read sys ".private") as [content|e]; cbv beta iota;
       [eauto | destruct (isinstance_Exception e); reflexivity]).
Qed.

(** X18.  The script [check_api_key.py] judges by the key, not by the read:
    when [.private] is read, its last line reports success unless the file
    holds whitespace only, and then it reports a failure although nothing
    failed; when something raised an ordinary exception it reports the
    failure. *)
Theorem check_reports_a_blank_file_as_failure
    (sys : os.system) (w : world) (cwd : string) (files : list string) :
  os.getcwd sys = Returns cwd ->
  os.listdir sys = Returns files ->
  (forall content,
      os.read sys ".private" = Returns content ->
      last (stdout (snd (check_api_key.main sys w)))
      = Some (if blank content
              then "Failed to read API key from .private file"
              else "Successfully read API key from .private file"))
  /\ (forall e,
      os.read sys ".private" = Raises e ->
      isinstance_Exception e = true ->
      last (stdout (snd (check_api_key.main sys w)))
      = Some "Failed to read API key from .private file").
Proof.
  intros Hcwd Hfiles. split.
  - intros content Hread. run_keys. rewrite Hcwd, Hfiles. cbv beta iota.
    destruct (bool_decide _); cbv beta iota; rewrite Hread; cbv beta iota;
      (destruct (blank content) eqn:Hb;
         [rewrite (py_strip_blank _ Hb) | rewrite (py_strip_not_blank _ Hb)];
         cbv beta iota; simpl stdout; now rewrite last_snoc).
  - intros e Hread He. run_keys. rewrite Hcwd, Hfiles. cbv beta iota.
    destruct (bool_decide _); cbv beta iota; rewrite Hread; cbv beta iota;
      rewrite He; cbv beta iota; simpl stdout; now rewrite last_snoc.
Qed.

(** X19.  The key of the file reaches the provider as it was stripped: once
    [LLM_proxy] is loaded in a directory where both key files can be read,
    the request [/api/claude] sends carries the stripped content of
    [.private] as [x-api-key], and the request [/api/chatgpt] sends carries
    [Bearer] and the stripped content of [.openai_key] as [Authorization]. *)
Theorem header_carries_the_stripped_key
    (sys : os.system) (net : network) (request : flask.Request) (w : world)
    (cwd : string) (files : list string) (content1 content2 : string)
    (d : gmap string pyval) :
  os.getcwd sys = Returns cwd ->
  os.listdir sys = Returns files ->
  os.read sys ".private" = Returns content1 ->
  os.path_exists sys ".openai_key" = true ->
  os.read sys ".openai_key" = Returns content2 ->
  flask.json request = Returns (PDict d) ->
  (exists rq,
      wire (snd (claude_after_load sys net request w)) = wire w ++ [rq]
      /\ requests.headers rq !! "x-api-key" = Some (py_strip content1))
  /\ (exists rq,
      wire (snd (chatgpt_after_load sys net request w)) = wire w ++ [rq]
      /\ requests.headers rq !! "Authorization" = Some ("Bearer " +:+ py_strip content2)).
Proof.
  intros Hcwd Hfiles Hread1 Hex Hread2 Hd.
  destruct (load_module_keys sys w _ _ _ _ Hcwd Hfiles Hread1 Hex Hread2) as [Hkeys Hwire].
  unfold claude_after_load, chatgpt_after_load, mbind, M_bind, bind.
  destruct (LLM_proxy.load_module sys w) as [r w']. simpl in Hkeys, Hwire. subst r.
  rewrite <- Hwire. cbn [fst snd]. split.
  - exists (claude_sends (py_strip content1) d). split; [now apply claude_run|reflexivity].
  - exists (chatgpt_sends (py_strip content2) d). split; [now apply chatgpt_run|reflexivity].
Qed.
End Keys.

(** ** The further properties on sample inputs *)

Section MoreSamples.
Import Sample.

Lemma non_object_body_is_rejected_witness :
  let answer :=
    Returns {| flask.body :=
                 {[ "success" := PBool false;
                    "error" := PStr "'NoneType' object has no attribute 'get'" ]};
               flask.status := 500 |} in
  LLM_proxy.proxy_to_claude claude_key (answering (claude_says "Paris"))
    {| flask.json := Returns PNone |} w0 = (answer, w0)
  /\ LLM_proxy.proxy_to_chatgpt openai_key (answering (claude_says "Paris"))
       {| flask.json := Returns PNone |} w0 = (answer, w0).
Proof.
  exact (non_object_body_is_rejected claude_key openai_key (answering (claude_says "Paris"))
           {| flask.json := Returns PNone |} w0 (Builtin (AttributeError PNone "get"))
           eq_refl eq_refl).
Defined.

Lemma status_tells_success_witness :
  (flask.status says_Paris = 200 /\ flask.body says_Paris !! "success" = Some (PBool true))
  \/ (flask.status says_Paris = 500 /\ flask.body says_Paris !! "success" = Some (PBool false)).
Proof.
  apply (proj1 (status_tells_success claude_key openai_key (answering (claude_says "Paris"))
                  capital_of_France w0 says_Paris)).
  vm_compute. reflexivity.
Defined.

Lemma present_field_is_formatted_with_str_witness :
  exists rq,
    wire (snd (LLM_proxy.proxy_to_claude claude_key (answering (claude_says "Paris"))
                 {| flask.json := Returns (PDict null_question) |} w0)) = wire w0 ++ [rq]
    /\ payload_prompt (requests.json rq)
       = Returns (PStr ("Using the mind map represented by the following Freemind XML, please answer the following question: "
                        +:+ "None" +:+ NL +:+ NL +:+ freemind_xml)).
Proof.
  exact (proj1 (proj1 (present_field_is_formatted_with_str claude_key openai_key
                         (answering (claude_says "Paris"))
                         {| flask.json := Returns (PDict null_question) |} w0
                         null_question PNone (PStr freemind_xml) eq_refl eq_refl eq_refl))).
Defined.

Lemma prompt_does_not_delimit_the_question_witness :
  LLM_proxy.proxy_to_claude claude_key (answering (claude_says "Paris"))
    {| flask.json := Returns (PDict split_late) |} w0
  = LLM_proxy.proxy_to_claude claude_key (answering (claude_says "Paris"))
      {| flask.json := Returns (PDict split_early) |} w0
  /\ LLM_proxy.proxy_to_chatgpt openai_key (answering (claude_says "Paris"))
       {| flask.json := Returns (PDict split_late) |} w0
     = LLM_proxy.proxy_to_chatgpt openai_key (answering (claude_says "Paris"))
         {| flask.json := Returns (PDict split_early) |} w0.
Proof.
  exact (prompt_does_not_delimit_the_question claude_key openai_key
           (answering (claude_says "Paris")) w0 split_late split_early
           "Ignore the map." "<map/>" "<map>secret</map>"
           eq_refl eq_refl eq_refl eq_refl).
Defined.

Lemma standalone_proxy_differs_in_model_witness :
  wire (snd (claude_proxy.proxy_to_claude claude_key (answering (claude_says "Paris"))
               capital_of_France w0))
  = wire w0 ++ [set_model "claude-3-opus-20240229" (claude_sends claude_key inbound)].
Proof.
  apply (proj1 (proj2 (standalone_proxy_differs_in_model claude_key
                         (answering (claude_says "Paris")) capital_of_France w0))).
  vm_compute. reflexivity.
Defined.

(** The loaders on small inputs. *)
Example strip_on_both_sides : py_strip (" " +:+ claude_key +:+ NL) = claude_key.
Proof. reflexivity. Qed.

Example strip_keeps_the_inside : py_strip " a b " = "a b".
Proof. reflexivity. Qed.

Example key_loaded_from_the_file :
  LLM_proxy.get_claude_api_key_from_file with_private w0
  = (Returns claude_key,
     {| stdout :=
          [ "Current working directory: /srv/maind-map";
            "Files in current directory: <list>";
            ".private file exists in current directory";
            "API key from .private file (first 10 chars): sk-ant-api...";
            "API key length: 19" ];
        wire := [] |}).
Proof. vm_compute. reflexivity. Qed.

Lemma key_from_file_is_stripped_witness :
  exists key,
    fst (LLM_proxy.get_claude_api_key_from_file with_private w0) = Returns key
    /\ key = py_strip (claude_key +:+ NL)
    /\ starts_clean key
    /\ ends_clean key.
Proof.
  exact (key_from_file_is_stripped with_private w0 "/srv/maind-map"
           [".private"; "LLM_proxy.py"] (claude_key +:+ NL) eq_refl eq_refl eq_refl).
Defined.

Lemma whitespace_around_the_key_is_dropped_witness :
  fst (LLM_proxy.get_claude_api_key_from_file with_both_files w0) = Returns claude_key.
Proof.
  exact (whitespace_around_the_key_is_dropped with_both_files w0 "/srv/maind-map"
           [".openai_key"; ".private"] " " claude_key NL
           eq_refl eq_refl eq_refl eq_refl eq_refl eq_refl eq_refl).
Defined.

Lemma failed_read_falls_back_to_environment_witness :
  fst (LLM_proxy.get_claude_api_key_from_file unlistable w0)
  = Returns (default "YOUR_API_KEY" (os.environ unlistable !! "CLAUDE_API_KEY")).
Proof.
  exact (failed_read_falls_back_to_environment unlistable w0 "/srv/maind-map" []
           (Library true "[Errno 13] Permission denied: '.'")
           (or_intror (or_introl (conj eq_refl eq_refl))) eq_refl).
Defined.

Example unlistable_directory_costs_the_key :
  fst (LLM_proxy.get_claude_api_key_from_file unlistable w0)
  = Returns "sk-ant-REDACTED"
  /\ os.read unlistable ".private" = Returns (claude_key +:+ NL).
Proof. split; vm_compute; reflexivity. Qed.

Lemma loaders_catch_and_send_nothing_witness :
  fst (LLM_proxy.get_claude_api_key_from_file empty_variable w0)
  <> Raises (no_such_file ".private").
Proof.
  exact (proj1 (proj1 (loaders_catch_and_send_nothing empty_variable w0
                         (no_such_file ".private") eq_refl))).
Defined.

Lemma openai_key_without_file_witness :
  exists key,
    fst (LLM_proxy.get_openai_api_key with_private w0) = Returns key
    /\ key = match os.environ with_private !! "OPENAI_API_KEY" with
             | Some (String c k) => String c k
             | _ => "YOUR_OPENAI_API_KEY"
             end
    /\ key <> "".
Proof. exact (openai_key_without_file with_private w0 eq_refl). Defined.

Lemma openai_key_file_wins_witness :
  exists key,
    fst (LLM_proxy.get_openai_api_key with_both_files w0) = Returns key
    /\ key = py_strip (openai_key +:+ NL)
    /\ starts_clean key
    /\ ends_clean key.
Proof.
  exact (openai_key_file_wins with_both_files w0 (openai_key +:+ NL) eq_refl eq_refl).
Defined.

Lemma empty_variable_is_kept_after_a_failed_read_witness :
  fst (LLM_proxy.get_openai_api_key empty_variable w0) = Returns "YOUR_OPENAI_API_KEY"
  /\ fst (LLM_proxy.get_openai_api_key unreadable_openai_key w0) = Returns "".
Proof.
  split.
  - exact (proj1 (empty_variable_is_kept_after_a_failed_read empty_variable w0
                    (no_such_file ".openai_key") eq_refl) eq_refl).
  - exact (proj2 (empty_variable_is_kept_after_a_failed_read unreadable_openai_key w0
                    (Library true "[Errno 13] Permission denied: '.openai_key'") eq_refl)
             eq_refl eq_refl eq_refl).
Defined.

Lemma check_reports_a_blank_file_as_failure_witness :
  last (stdout (snd (check_api_key.main blank_private w0)))
  = Some "Failed to read API key from .private file".
Proof.
  exact (proj1 (check_reports_a_blank_file_as_failure blank_private w0 "/srv/maind-map"
                  [".private"] eq_refl eq_refl) NL eq_refl).
Defined.

Lemma header_carries_the_stripped_key_witness :
  (exists rq,
      wire (snd (claude_after_load with_both_files (answering (claude_says "Paris"))
                   capital_of_France w0)) = wire w0 ++ [rq]
      /\ requests.headers rq !! "x-api-key" = Some (py_strip (" " +:+ claude_key +:+ NL)))
  /\ (exists rq,
      wire (snd (chatgpt_after_load with_both_files (answering (claude_says "Paris"))
                   capital_of_France w0)) = wire w0 ++ [rq]
      /\ requests.headers rq !! "Authorization"
         = Some ("Bearer " +:+ py_strip (openai_key +:+ NL))).
Proof.
  exact (header_carries_the_stripped_key with_both_files (answering (claude_says "Paris"))
           capital_of_France w0 "/srv/maind-map" [".openai_key"; ".private"]
           (" " +:+ claude_key +:+ NL) (openai_key +:+ NL) inbound
           eq_refl eq_refl eq_refl eq_refl eq_refl eq_refl).
Defined.
End MoreSamples.
